(** * class_views: generic class-based views over Django (views.py)

    A shallow embedding of [views.py] and the properties of its
    specification.  Python objects are dynamically typed, so every Python
    value is a [value]; an instance is a location in a heap of attribute
    dictionaries; a method is a function in the monad [M] of heap-passing
    computations that either return or raise.  Subclasses override methods,
    so a class is a table of optional overrides and [self.m(...)] is a
    dispatch through that table. *)

From stdpp Require Import gmap strings list fin_maps.

Local Open Scope string_scope.
Local Set Warnings "-register-all".

(** ** Python values, exceptions and the heap *)

Module Py.

(** The Python values the module handles.  [VObj] is an object of the
    framework (a request, a template, a context, a response, a loader)
    that the code passes along without looking inside. *)
Inductive value :=
| VNone
| VBool (b : bool)
| VInt (n : Z)
| VStr (s : string)
| VUnicode (s : string)
| VList (l : list value)
| VTuple (l : list value)
| VDict (d : list (value * value))
| VObj (id : N).

(** [bool(v)]: None, False, zero and empty containers are false. *)
Definition truthy (v : value) : bool :=
  match v with
  | VNone => false
  | VBool b => b
  | VInt n => negb (Z.eqb n 0)
  | VStr s | VUnicode s => negb (String.eqb s "")
  | VList l | VTuple l => match l with [] => false | _ => true end
  | VDict d => match d with [] => false | _ => true end
  | VObj _ => true
  end.

(** [isinstance(v, basestring)]: [str] and [unicode]. *)
Definition is_basestring (v : value) : bool :=
  match v with VStr _ | VUnicode _ => true | _ => false end.

(** A list or a tuple. *)
Definition is_list_shaped (v : value) : bool :=
  match v with VList _ | VTuple _ => true | _ => false end.

(** Keyword arguments and other string-keyed dicts, in iteration order. *)
Definition kwargs := list (string * value).

Fixpoint dict_get (k : string) (d : kwargs) : option value :=
  match d with
  | [] => None
  | (k', v) :: d' => if String.eqb k k' then Some v else dict_get k d'
  end.

Definition dict_del (k : string) (d : kwargs) : kwargs :=
  List.filter (fun kv => negb (String.eqb k (fst kv))) d.

(** [d.pop(k, default)]: the value and the dict without the key. *)
Definition dict_pop (k : string) (dflt : value) (d : kwargs) : value * kwargs :=
  (default dflt (dict_get k d), dict_del k d).

Definition dict_keys (d : kwargs) : list string := List.map fst d.

(** Exceptions.  [HttpRedirect] is the class of this module; an instance
    carries [args] and the [redirect] attribute set by its [__init__]. *)
Inductive exn :=
| NameError (name : string)
| TypeError (msg : string)
| AttributeError (cls attr : string)
| StopIteration
| ImproperlyConfigured (msg : string)
| HttpRedirect (args : list value) (redirect : value)
| OtherError (payload : value).

Inductive result (A : Type) :=
| Return (a : A)
| Raise (e : exn).
Arguments Return {A} a.
Arguments Raise {A} e.

(** Instances live in a heap: a location holds the instance [__dict__]. *)
Abbreviation loc := positive.
Abbreviation heap := (gmap positive (gmap string value)).

(** Computations: read and write the heap, return or raise. *)
Definition M (A : Type) : Type := heap -> result A * heap.

Definition ret {A} (a : A) : M A := fun h => (Return a, h).
Definition raise {A} (e : exn) : M A := fun h => (Raise e, h).
Definition bind {A B} (m : M A) (k : A -> M B) : M B :=
  fun h => match m h with
           | (Return a, h') => k a h'
           | (Raise e, h') => (Raise e, h')
           end.
(** [try: m except: handler] *)
Definition try_except {A} (m : M A) (handler : exn -> M A) : M A :=
  fun h => match m h with
           | (Return a, h') => (Return a, h')
           | (Raise e, h') => handler e h'
           end.
(** A framework call: it returns or raises and leaves the heap alone. *)
Definition lift {A} (r : result A) : M A := fun h => (r, h).

(** [object.__new__]: a new location with an empty [__dict__]. *)
Definition new_object : M loc :=
  fun h => let l := fresh (dom h) in (Return l, <[l := ∅]> h).

(** [setattr(self, k, v)] on an instance [__dict__]. *)
Definition setattr (self : loc) (k : string) (v : value) : M unit :=
  fun h => (Return tt, alter (fun d => <[k := v]> d) self h).

(** The instance [__dict__] entry, if any. *)
Definition attr (h : heap) (self : loc) (k : string) : option value :=
  h !! self ≫= fun d => d !! k.

End Py.
Export Py.

Notation "x <- m ;; k" := (bind m (fun x => k))
  (at level 100, m at next level, right associativity).

(** ** The framework

    What the module takes from Django.  [import django.template.loader]
    inside [get_template_loader] binds the loader module; the other entries
    are what the named objects do once a name resolves to them. *)

Class Django := {
  django_template_loader : value;
  select_template : value -> value -> result value;
  render : value -> value -> result value;
  RequestContext : value -> value -> value -> result value;
  HttpResponse : value -> kwargs -> result value;
  HttpResponseRedirect : value -> result value
}.

(** ** The module namespace

    A global name resolves in the module's globals and then in the
    builtins.  The module's only import is
    [from django.http import HttpResponseRedirect] (line 1); its other
    globals are its own definitions. *)

Definition namespace := list string.

Definition views_globals : namespace :=
  ["HttpResponseRedirect"; "decorate_method_with"; "GenericView";
   "HttpRedirect"; "ObjectViewMeta"; "ObjectView"; "instantiator"].

(** The builtins the module refers to. *)
Definition builtins : namespace :=
  ["object"; "None"; "TypeError"; "Exception"; "type"; "super"; "list";
   "iter"; "isinstance"; "basestring"; "getattr"; "setattr"; "hasattr"].

Definition bound (G : namespace) (name : string) : bool :=
  existsb (String.eqb name) (G ++ builtins).

(** Loading a global name: [NameError] when it is bound nowhere. *)
Definition load_global (G : namespace) (name : string) : M unit :=
  if bound G name then ret tt else raise (NameError name).

(** ** Classes of views

    A class is seen through what the code asks of [self.__class__]: its
    [__name__], its class attributes ([getattr(self.__class__, k, ...)], the
    resolution order already applied), and the methods it defines over those
    of [GenericView] ([None]: the method is inherited). *)

Record view_class := {
  cls_name : string;
  cls_attrs : kwargs;
  def_get_template : option (loc -> value -> value -> M value);
  def_get_template_names : option (loc -> value -> value -> M value);
  def_load_template : option (loc -> value -> value -> value -> M value);
  def_get_template_loader : option (loc -> value -> value -> M value);
  def_get_context : option (loc -> value -> value -> value -> M value);
  def_get_context_processors : option (loc -> value -> value -> M value);
  def_get_mimetype : option (loc -> value -> value -> M value);
  def_get_response :
    option (loc -> value -> value -> value -> value -> kwargs -> M value)
}.

(** [self.k] for a data attribute: the instance [__dict__], then the class,
    else [AttributeError]. *)
Definition getattr_self (C : view_class) (self : loc) (k : string) : M value :=
  fun h =>
    match attr h self k with
    | Some v => (Return v, h)
    | None =>
        match dict_get k (cls_attrs C) with
        | Some v => (Return v, h)
        | None => (Raise (AttributeError (cls_name C) k), h)
        end
    end.

(** ** decorate_method_with *)

Section DecorateMethod.
Context {Self Args R : Type}.

(** A function decorator turned into a method decorator: at every call of
    the method, the decorator is applied to the method bound to [self]. *)
Definition decorate_method_with
    (function_decorator : (Args -> M R) -> M (Args -> M R))
    (unbound_method : Self -> Args -> M R) : Self -> Args -> M R :=
  fun self args =>
    let f := fun a => unbound_method self a in
    g <- function_decorator f ;; g args.

End DecorateMethod.

(** ** GenericView *)

Module GenericView.
Section GenericView.
Context `{Django}.
Variable G : namespace.
Variable C : view_class.

(** The keyword defaults written in [__init__]. *)
Definition defaults : kwargs :=
  [("context_processors", VNone); ("mimetype", VStr "text/html");
   ("template_loader", VNone); ("template_name", VNone)].

(** One turn of the loop of [_load_config_values]. *)
Definition load_config_value (self : loc) (initkwargs : kwargs)
    (kd : string * value) : M kwargs :=
  let k := fst kd in
  let dflt := default (snd kd) (dict_get k (cls_attrs C)) in
  let '(value, initkwargs') := dict_pop k dflt initkwargs in
  _ <- setattr self k value ;;
  ret initkwargs'.

(** [_load_config_values]: [initkwargs] is the caller's dict, popped in
    place, so the dict left at the end is returned. *)
Fixpoint _load_config_values (self : loc) (initkwargs : kwargs)
    (defaults : kwargs) : M kwargs :=
  match defaults with
  | [] => ret initkwargs
  | kd :: rest =>
      initkwargs' <- load_config_value self initkwargs kd ;;
      _load_config_values self initkwargs' rest
  end.

Definition unexpected_keyword (k : string) : string :=
  "__init__() got an unexpected keyword argument '" ++ k ++ "'".

Definition __init__ (self : loc) (kwargs : kwargs) : M unit :=
  kwargs' <- _load_config_values self kwargs defaults ;;
  match kwargs' with
  | [] => ret tt
  | (k, _) :: _ => raise (TypeError (unexpected_keyword k))
  end.

Definition get_template_names (self : loc) (request obj : value) : M value :=
  template_name <- getattr_self C self "template_name" ;;
  match template_name with
  | VNone => ret (VList [])
  | VStr _ | VUnicode _ => ret (VList [template_name])
  | _ => ret template_name
  end.

Definition self_get_template_names :=
  default get_template_names (def_get_template_names C).

Definition get_template_loader (self : loc) (request obj : value) : M value :=
  template_loader <- getattr_self C self "template_loader" ;;
  ret (if truthy template_loader then template_loader
       else django_template_loader).

Definition self_get_template_loader :=
  default get_template_loader (def_get_template_loader C).

Definition load_template (self : loc) (request obj names : value) : M value :=
  loader <- self_get_template_loader self request obj ;;
  lift (select_template loader names).

Definition self_load_template :=
  default load_template (def_load_template C).

Definition must_provide (name : string) : string :=
  "'" ++ name ++ "' must provide template_name.".

Definition get_template (self : loc) (request obj : value) : M value :=
  names <- self_get_template_names self request obj ;;
  if negb (truthy names) then
    _ <- load_global G "ImproperlyConfigured" ;;
    raise (ImproperlyConfigured (must_provide (cls_name C)))
  else self_load_template self request obj names.

Definition self_get_template :=
  default get_template (def_get_template C).

Definition get_context_processors (self : loc) (request obj : value)
    : M value :=
  getattr_self C self "context_processors".

Definition self_get_context_processors :=
  default get_context_processors (def_get_context_processors C).

Definition get_context (self : loc) (request obj context : value) : M value :=
  processors <- self_get_context_processors self request obj ;;
  let context := match context with VNone => VDict [] | _ => context end in
  _ <- load_global G "RequestContext" ;;
  lift (RequestContext request context processors).

Definition self_get_context :=
  default get_context (def_get_context C).

Definition get_mimetype (self : loc) (request obj : value) : M value :=
  getattr_self C self "mimetype".

Definition self_get_mimetype :=
  default get_mimetype (def_get_mimetype C).

Definition get_response (self : loc) (request obj template context : value)
    (httpresponse_kwargs : kwargs) : M value :=
  _ <- load_global G "HttpResponse" ;;
  content <- lift (render template context) ;;
  lift (HttpResponse content httpresponse_kwargs).

Definition self_get_response :=
  default get_response (def_get_response C).

Definition __call__ (self : loc) (request object : value) : M value :=
  template <- self_get_template self request object ;;
  context <- self_get_context self request object VNone ;;
  mimetype <- self_get_mimetype self request object ;;
  response <- self_get_response self request object template context
                [("mimetype", mimetype)] ;;
  ret response.

End GenericView.
End GenericView.

(** ** HttpRedirect *)

Module HttpRedirect.
Section HttpRedirect.
Context `{Django}.
Variable G : namespace.

(** [HttpRedirect(path, *args)]: the base initialiser stores the positional
    arguments, then [self.redirect = HttpResponseRedirect(path)]. *)
Definition __init__ (path : value) (args : list value) : M exn :=
  _ <- load_global G "HttpResponseRedirect" ;;
  redirect <- lift (HttpResponseRedirect path) ;;
  ret (HttpRedirect (path :: args) redirect).

End HttpRedirect.
End HttpRedirect.

(** ** ObjectViewMeta *)

Module ObjectViewMeta.
Section ObjectViewMeta.
(** A callable is any Python object; a decorator maps one to another and,
    like any call, may raise. *)
Context {callable : Type}.

Definition decorator := callable -> M callable.

(** A class is seen through the attributes the metaclass looks up on it:
    [hasattr(cls, "decorators")] with [cls.decorators], and [cls.__call__].
    Every class made here descends from [GenericView], so [__call__] is
    always found. *)
Record pyclass := {
  c_name : string;
  c_decorators : option (list decorator);
  c___call__ : callable
}.

(** The class statement's own namespace ([attrs]). *)
Record class_body := {
  body_decorators : option (list decorator);
  body___call__ : option callable
}.

(** [type.__new__(mcs, name, bases, attrs)] for one base class, as in
    [class MyView(ObjectView)]: an attribute is the body's own, else
    inherited. *)
Definition type___new__ (name : string) (base : pyclass) (attrs : class_body)
    : pyclass :=
  {| c_name := name;
     c_decorators :=
       match body_decorators attrs with
       | Some ds => Some ds
       | None => c_decorators base
       end;
     c___call__ := default (c___call__ base) (body___call__ attrs) |}.

Definition set___call__ (cls : pyclass) (call : callable) : pyclass :=
  {| c_name := c_name cls;
     c_decorators := c_decorators cls;
     c___call__ := call |}.

(** [for d in decorators: cls.__call__ = d(cls.__call__)] *)
Fixpoint for_decorators (decorators : list decorator) (cls : pyclass)
    : M pyclass :=
  match decorators with
  | [] => ret cls
  | d :: rest =>
      call <- d (c___call__ cls) ;;
      for_decorators rest (set___call__ cls call)
  end.

Definition __new__ (name : string) (base : pyclass) (attrs : class_body)
    : M pyclass :=
  let cls := type___new__ name base attrs in
  match c_decorators cls with
  | Some ds =>
      let decorators := rev ds in
      for_decorators decorators cls
  | None => ret cls
  end.

End ObjectViewMeta.
Arguments pyclass : clear implicits.
Arguments class_body : clear implicits.
Arguments decorator : clear implicits.
End ObjectViewMeta.

(** ** ObjectView *)

Module ObjectView.
Section ObjectView.
Context `{Django}.
Variable G : namespace.
Variable C : view_class.

Definition __call__ (self : loc) (request object : value) : M value :=
  try_except (GenericView.__call__ G C self request object)
    (fun e =>
       match e with
       | HttpRedirect _ redirect => ret redirect
       | _ => raise e
       end).

End ObjectView.
End ObjectView.

(** ** instantiator *)

(** A class as [instantiator] uses it: calling [cls] with keyword
    arguments makes a new object (by [object.__new__], which no class of the
    module overrides) and runs [__init__] on it; the instance is then
    called, which runs the [__call__] of its class. *)
Record instantiable := {
  cls___init__ : loc -> kwargs -> M unit;
  cls___call__ : loc -> value -> value -> M value
}.

(** Calling [cls] with the keywords of [kwargs]: the callee receives a
    dict built anew for the call. *)
Definition construct (cls : instantiable) (kwargs : kwargs) : M loc :=
  self <- new_object ;;
  _ <- cls___init__ cls self kwargs ;;
  ret self.

Definition new_instance (cls : instantiable) (kwargs : kwargs)
    (request object : value) : M value :=
  instance <- construct cls kwargs ;;
  cls___call__ cls instance request object.

Definition instantiator (cls : instantiable) (kwargs : kwargs)
    : value -> value -> M value :=
  new_instance cls kwargs.

(** ** The classes of the module, and the words of the specification *)

(** [GenericView] and [ObjectView] themselves: nothing overridden, no class
    attribute among the configuration names. *)
Definition plain_class (name : string) : view_class :=
  {| cls_name := name; cls_attrs := [];
     def_get_template := None; def_get_template_names := None;
     def_load_template := None; def_get_template_loader := None;
     def_get_context := None; def_get_context_processors := None;
     def_get_mimetype := None; def_get_response := None |}.

Definition GenericView_class : view_class := plain_class "GenericView".
Definition ObjectView_class : view_class := plain_class "ObjectView".

(** A view class as a class to instantiate: [__init__] is [GenericView]'s,
    [__call__] is the one given. *)
Definition view_type (C : view_class)
    (call : loc -> value -> value -> M value) : instantiable :=
  {| cls___init__ := GenericView.__init__ C; cls___call__ := call |}.

(** The four configuration attributes. *)
Definition config_names : list string :=
  ["context_processors"; "mimetype"; "template_loader"; "template_name"].

Definition is_config_name (k : string) : bool :=
  existsb (String.eqb k) config_names.

(** Precedence of a configuration value: the keyword argument, else the
    class attribute, else the default. *)
Definition config_value (C : view_class) (kwargs : kwargs) (k : string)
    (dflt : value) : value :=
  match dict_get k kwargs with
  | Some v => v
  | None =>
      match dict_get k (cls_attrs C) with
      | Some v => v
      | None => dflt
      end
  end.

(** The instance [__dict__] once the four attributes are set. *)
Definition configured (C : view_class) (kwargs : kwargs)
    (defaults : Py.kwargs) (d : gmap string value) : gmap string value :=
  foldl (fun d kd => <[fst kd := config_value C kwargs (fst kd) (snd kd)]> d)
        d defaults.

(** The keyword dict once the keys of [defaults] are popped. *)
Definition popped (kw defaults : kwargs) : kwargs :=
  foldl (fun kw kd => dict_del (fst kd) kw) kw defaults.

(** The keyword arguments that are none of the four, in iteration order. *)
Definition unexpected (kwargs : kwargs) : list string :=
  List.filter (fun k => negb (is_config_name k)) (dict_keys kwargs).

(** What [get_template_names] makes of [template_name]. *)
Definition names_of (template_name : value) : value :=
  match template_name with
  | VNone => VList []
  | VStr _ | VUnicode _ => VList [template_name]
  | _ => template_name
  end.

(** [d1(d2(...dn(call)...))]: the last decorator is applied first, the first
    one is outermost. *)
Definition nested {callable : Type}
    (ds : list (ObjectViewMeta.decorator callable)) (call : callable)
    : M callable :=
  foldr (fun d inner => c <- inner ;; d c) (ret call) ds.

Section Words.
Context `{Django}.
Variable G : namespace.
Variable C : view_class.
Variables (self : loc) (request object : value).

(** The course of a call of [GenericView.__call__]: the four methods in
    order, each on the heap its predecessor left, up to the first that
    raises. *)
Inductive call_sequence : heap -> result value * heap -> Prop :=
| seq_template_raises h e h1 :
    GenericView.self_get_template G C self request object h = (Raise e, h1) ->
    call_sequence h (Raise e, h1)
| seq_context_raises h template h1 e h2 :
    GenericView.self_get_template G C self request object h
      = (Return template, h1) ->
    GenericView.self_get_context G C self request object VNone h1
      = (Raise e, h2) ->
    call_sequence h (Raise e, h2)
| seq_mimetype_raises h template h1 context h2 e h3 :
    GenericView.self_get_template G C self request object h
      = (Return template, h1) ->
    GenericView.self_get_context G C self request object VNone h1
      = (Return context, h2) ->
    GenericView.self_get_mimetype C self request object h2 = (Raise e, h3) ->
    call_sequence h (Raise e, h3)
| seq_response h template h1 context h2 mimetype h3 out :
    GenericView.self_get_template G C self request object h
      = (Return template, h1) ->
    GenericView.self_get_context G C self request object VNone h1
      = (Return context, h2) ->
    GenericView.self_get_mimetype C self request object h2
      = (Return mimetype, h3) ->
    GenericView.self_get_response G C self request object template context
      [("mimetype", mimetype)] h3 = out ->
    call_sequence h out.

(** A method invoked by the call raises [e], leaving heap [h']. *)
Definition method_raises (h : heap) (e : exn) (h' : heap) : Prop :=
  call_sequence h (Raise e, h').

(** A computation leaves the configuration attributes of [self] as they
    were. *)
Definition keeps_config {A} (m : M A) : Prop :=
  forall h k, In k config_names -> attr (snd (m h)) self k = attr h self k.

(** Every method the class defines over [GenericView]'s keeps them. *)
Definition overrides_keep_config : Prop :=
  (forall f, def_get_template C = Some f -> keeps_config (f self request object)) /\
  (forall f, def_get_template_names C = Some f ->
     keeps_config (f self request object)) /\
  (forall f, def_load_template C = Some f ->
     forall names, keeps_config (f self request object names)) /\
  (forall f, def_get_template_loader C = Some f ->
     keeps_config (f self request object)) /\
  (forall f, def_get_context C = Some f ->
     forall context, keeps_config (f self request object context)) /\
  (forall f, def_get_context_processors C = Some f ->
     keeps_config (f self request object)) /\
  (forall f, def_get_mimetype C = Some f -> keeps_config (f self request object)) /\
  (forall f, def_get_response C = Some f ->
     forall template context kw,
       keeps_config (f self request object template context kw)).

End Words.

(** ** A small framework and sample classes, for concrete runs *)

Definition demo_django : Django :=
  {| django_template_loader := VObj 0;
     select_template := fun loader names =>
       match names with
       | VList (_ :: _) | VTuple (_ :: _) => Return (VObj 1)
       | _ => Raise (OtherError (VStr "TemplateDoesNotExist"))
       end;
     render := fun template context => Return (VStr "<html></html>");
     RequestContext := fun request dict processors => Return (VObj 2);
     HttpResponse := fun content kw =>
       Return (VTuple [VInt 200; content; default VNone (dict_get "mimetype" kw)]);
     HttpResponseRedirect := fun path => Return (VTuple [VInt 302; path]) |}.

(** The example of the [ObjectView] docstring: a context method that sends
    the user away. *)
Definition denied_view : view_class :=
  {| cls_name := "DeniedView";
     cls_attrs := [("template_name", VStr "denied.html")];
     def_get_template := None; def_get_template_names := None;
     def_load_template := None; def_get_template_loader := None;
     def_get_context := Some (fun self request obj context =>
       e <- @HttpRedirect.__init__ demo_django views_globals
              (VStr "/auth/permission_denied/") [] ;;
       raise e);
     def_get_context_processors := None;
     def_get_mimetype := None; def_get_response := None |}.

(** A class with class attributes among the configuration names. *)
Definition json_view : view_class :=
  {| cls_name := "JsonView";
     cls_attrs := [("mimetype", VStr "application/json");
                   ("template_name", VStr "class.html")];
     def_get_template := None; def_get_template_names := None;
     def_load_template := None; def_get_template_loader := None;
     def_get_context := None; def_get_context_processors := None;
     def_get_mimetype := None; def_get_response := None |}.

(** A view that defines [get_context] and [get_response] itself. *)
Definition hello_view : view_class :=
  {| cls_name := "HelloView";
     cls_attrs := [("template_name", VStr "hello.html")];
     def_get_template := None; def_get_template_names := None;
     def_load_template := None; def_get_template_loader := None;
     def_get_context := Some (fun self request obj context =>
       ret (VDict [(VStr "greeting", VStr "hello")]));
     def_get_context_processors := None;
     def_get_mimetype := None;
     def_get_response := Some (fun self request obj template context kw =>
       content <- lift (@render demo_django template context) ;;
       ret (VTuple [VInt 200; content; default VNone (dict_get "mimetype" kw)])) |}.

Definition hello_type : instantiable :=
  view_type hello_view (@ObjectView.__call__ demo_django views_globals hello_view).

(** Callables by name, and decorators that write the nesting down. *)
Definition wrap (d : string) : ObjectViewMeta.decorator string :=
  fun call => ret (d ++ "(" ++ call ++ ")").

Definition ObjectView_by_name : ObjectViewMeta.pyclass string :=
  {| ObjectViewMeta.c_name := "ObjectView";
     ObjectViewMeta.c_decorators := None;
     ObjectViewMeta.c___call__ := "ObjectView.__call__" |}.

Definition call_of (r : result (ObjectViewMeta.pyclass string) * heap)
    : option string :=
  match fst r with
  | Return cls => Some (ObjectViewMeta.c___call__ cls)
  | Raise _ => None
  end.

(** A framework whose objects show what they were made from. *)
Definition echo_django : Django :=
  {| django_template_loader := VObj 0;
     select_template := fun loader names => Return (VTuple [loader; names]);
     render := fun template context => Return (VTuple [template; context]);
     RequestContext := fun request dict processors =>
       Return (VTuple [request; dict; processors]);
     HttpResponse := fun content kw =>
       Return (VTuple [content; default VNone (dict_get "mimetype" kw)]);
     HttpResponseRedirect := fun path => Return (VTuple [VInt 302; path]) |}.

(** A view that defines [get_context] only. *)
Definition context_view : view_class :=
  {| cls_name := "ContextView";
     cls_attrs := [("template_name", VStr "context.html")];
     def_get_template := None; def_get_template_names := None;
     def_load_template := None; def_get_template_loader := None;
     def_get_context := Some (fun self request obj context =>
       ret (VDict [(VStr "greeting", VStr "hello")]));
     def_get_context_processors := None;
     def_get_mimetype := None; def_get_response := None |}.

(** Methods as [decorate_method_with] sees them: [self], then the other
    arguments, here the request and the object. *)
Definition method := loc -> value * value -> M value.

(** [decorate_method_with(function_decorator)] as an entry of a
    [decorators] list: applied to a method, it builds the proxy and does
    nothing else. *)
Definition method_decorator
    (function_decorator : (value * value -> M value) -> M (value * value -> M value))
    : ObjectViewMeta.decorator method :=
  fun unbound_method =>
    ret (decorate_method_with function_decorator unbound_method).

(** A function decorator in the manner of [login_required]: an anonymous
    request (None) is answered without calling the view. *)
Definition login_required (f : value * value -> M value)
    : M (value * value -> M value) :=
  ret (fun args =>
         match fst args with
         | VNone => ret (VTuple [VInt 302; VStr "/login/"])
         | _ => f args
         end).

(** A decorator that fails when the class is made. *)
Definition broken_decorator : ObjectViewMeta.decorator string :=
  fun call => raise (TypeError "not callable").

(** A view whose [get_context] writes a configuration attribute. *)
Definition csv_view : view_class :=
  {| cls_name := "CsvView";
     cls_attrs := [("template_name", VStr "table.html")];
     def_get_template := None; def_get_template_names := None;
     def_load_template := None; def_get_template_loader := None;
     def_get_context := Some (fun self request obj context =>
       _ <- setattr self "mimetype" (VStr "text/csv") ;;
       ret (VDict []));
     def_get_context_processors := None;
     def_get_mimetype := None; def_get_response := None |}.

(** An instance of a class on a heap that holds nothing else. *)
Definition made (C : view_class) (kwargs : kwargs) : heap :=
  snd (construct (view_type C (fun _ _ _ => ret VNone)) kwargs ∅).

(** ** Properties *)

(** *** The monad and the dicts *)

Lemma dict_get_del_ne k k' d :
  k <> k' -> dict_get k (dict_del k' d) = dict_get k d.
Proof.
  intros Hne. unfold dict_del.
  induction d as [|[k0 v] d IH]; [done|].
  cbn [List.filter fst dict_get].
  destruct (String.eqb_spec k' k0) as [->|Hk0]; cbn [negb dict_get].
  - rewrite IH. destruct (String.eqb_spec k k0); congruence.
  - by rewrite IH.
Qed.

Lemma config_value_del_ne C kw k k' dflt :
  k <> k' -> config_value C (dict_del k' kw) k dflt = config_value C kw k dflt.
Proof. intros Hne. unfold config_value. by rewrite dict_get_del_ne. Qed.

(** *** GenericView.__init__ *)

Section Init.
Variable C : view_class.

Lemma load_config_value_run self kw k dflt (h : heap) :
  GenericView.load_config_value C self kw (k, dflt) h
  = (Return (dict_del k kw),
     alter (fun d => <[k := config_value C kw k dflt]> d) self h).
Proof. reflexivity. Qed.

Lemma configured_ext kw1 kw2 defaults d :
  (forall kd, In kd defaults ->
     config_value C kw1 (fst kd) (snd kd) = config_value C kw2 (fst kd) (snd kd)) ->
  configured C kw1 defaults d = configured C kw2 defaults d.
Proof.
  revert d. induction defaults as [|kd rest IH]; intros d Hext; [done|].
  unfold configured in *. cbn [foldl].
  rewrite (Hext kd) by (by left). apply IH. intros; apply Hext; by right.
Qed.

Lemma load_config_values_run defaults :
  forall self kw (h : heap),
    List.NoDup (dict_keys defaults) ->
    GenericView._load_config_values C self kw defaults h
    = (Return (popped kw defaults), alter (configured C kw defaults) self h).
Proof.
  induction defaults as [|[k dflt] rest IH]; intros self kw h Hnd.
  - cbn. unfold ret. f_equal. symmetry. by apply alter_id.
  - cbn [GenericView._load_config_values]. unfold bind at 1.
    rewrite load_config_value_run.
    cbn [dict_keys List.map fst] in Hnd. inversion Hnd as [|? ? Hk Hrest]; subst.
    rewrite IH by done. rewrite alter_alter_eq.
    unfold popped. cbn [foldl fst]. f_equal. apply alter_ext. intros d _.
    unfold compose. etransitivity; [apply configured_ext|reflexivity].
    intros [k' v'] Hin. cbn [fst snd]. apply config_value_del_ne.
    intros ->. apply Hk. unfold dict_keys.
    change k with (fst (k, v')). by apply in_map.
Qed.

(** The loop runs over a dict, whose order of iteration is not that of the
    source text; the outcome does not depend on it. *)
Lemma dict_del_comm k k' kw :
  dict_del k (dict_del k' kw) = dict_del k' (dict_del k kw).
Proof.
  unfold dict_del. induction kw as [|[k0 v] kw IH]; [done|].
  cbn [List.filter fst].
  destruct (String.eqb k' k0) eqn:E'; destruct (String.eqb k k0) eqn:E;
    cbn [negb List.filter fst]; rewrite ?E, ?E'; cbn [negb]; by rewrite IH.
Qed.

Lemma popped_perm defaults defaults' :
  Permutation defaults defaults' ->
  forall kw, popped kw defaults = popped kw defaults'.
Proof.
  unfold popped. induction 1 as [|kd l l' _ IH|kd kd' l|l l' l'' _ IH1 _ IH2];
    intros kw; cbn [foldl].
  - done.
  - apply IH.
  - by rewrite dict_del_comm.
  - by rewrite IH1.
Qed.

Lemma configured_perm defaults defaults' kw :
  Permutation defaults defaults' ->
  List.NoDup (dict_keys defaults) ->
  forall d, configured C kw defaults d = configured C kw defaults' d.
Proof.
  unfold configured.
  induction 1 as [|kd l l' _ IH|kd kd' l|l l' l'' Hp IH1 _ IH2];
    intros Hnd d; cbn [foldl].
  - done.
  - apply IH. by inversion Hnd.
  - f_equal. apply insert_insert_ne.
    inversion Hnd as [|? ? Hk _]; subst. intros Heq. apply Hk. by left.
  - rewrite IH1 by done. apply IH2.
    eapply Permutation_NoDup; [|exact Hnd].
    unfold dict_keys. by apply Permutation_map.
Qed.

Lemma load_config_values_any_order defaults defaults' self kw (h : heap) :
  Permutation defaults defaults' ->
  List.NoDup (dict_keys defaults) ->
  GenericView._load_config_values C self kw defaults' h
  = GenericView._load_config_values C self kw defaults h.
Proof.
  intros Hp Hnd. rewrite !load_config_values_run; [|done|].
  - rewrite (popped_perm _ _ Hp). f_equal. apply alter_ext. intros d _.
    symmetry. by apply configured_perm.
  - eapply Permutation_NoDup; [|exact Hnd].
    unfold dict_keys. by apply Permutation_map.
Qed.

Lemma dict_keys_del k kw :
  dict_keys (dict_del k kw)
  = List.filter (fun k' => negb (String.eqb k k')) (dict_keys kw).
Proof.
  unfold dict_keys, dict_del. induction kw as [|[k0 v] kw IH]; [done|].
  cbn [List.filter List.map fst]. destruct (String.eqb k k0); cbn; by rewrite IH.
Qed.

Lemma filter_filter_andb {A} (p q : A -> bool) l :
  List.filter p (List.filter q l) = List.filter (fun x => q x && p x) l.
Proof.
  induction l as [|x l IH]; [done|]. cbn [List.filter].
  destruct (q x); cbn [List.filter andb]; [destruct (p x)|]; by rewrite IH.
Qed.

Lemma dict_keys_popped defaults : forall kw,
  dict_keys (popped kw defaults)
  = List.filter (fun k => negb (existsb (String.eqb k) (dict_keys defaults)))
      (dict_keys kw).
Proof.
  induction defaults as [|[k dflt] rest IH]; intros kw.
  - unfold popped. cbn [foldl]. generalize (dict_keys kw). intros l.
    induction l as [|? ? IHl]; [done|]. cbn in *. by f_equal.
  - unfold popped in *. cbn [foldl fst]. rewrite IH, dict_keys_del.
    rewrite filter_filter_andb. apply filter_ext. intros k'.
    cbn [dict_keys List.map fst existsb]. rewrite negb_orb.
    by rewrite (String.eqb_sym k k').
Qed.

Lemma init_run self kwargs (h : heap) :
  GenericView.__init__ C self kwargs h
  = (match unexpected kwargs with
     | [] => Return tt
     | k :: _ => Raise (TypeError (GenericView.unexpected_keyword k))
     end,
     alter (configured C kwargs GenericView.defaults) self h).
Proof.
  unfold GenericView.__init__, bind.
  rewrite load_config_values_run
    by (vm_compute; repeat constructor; cbn; intuition congruence).
  pose proof (dict_keys_popped GenericView.defaults kwargs) as Hk.
  change (List.filter _ (dict_keys kwargs)) with (unexpected kwargs) in Hk.
  destruct (popped kwargs GenericView.defaults) as [|[k v] rest];
    cbn [dict_keys List.map fst] in Hk; rewrite <- Hk; done.
Qed.

End Init.

Lemma unexpected_head kwargs k rest :
  unexpected kwargs = k :: rest ->
  In k (dict_keys kwargs) /\ ~ In k config_names.
Proof.
  intros Hu. assert (Hin : In k (unexpected kwargs)) by (rewrite Hu; by left).
  unfold unexpected in Hin. apply filter_In in Hin as [Hin Hneg]. split; [done|].
  intros Hc. apply negb_true_iff in Hneg. unfold is_config_name in Hneg.
  assert (existsb (String.eqb k) config_names = true) as Hex; [|congruence].
  apply existsb_exists. exists k. split; [done|apply String.eqb_refl].
Qed.

Lemma unexpected_nil kwargs :
  unexpected kwargs = [] <->
  List.Forall (fun k => In k config_names) (dict_keys kwargs).
Proof.
  unfold unexpected. induction (dict_keys kwargs) as [|k l IH].
  - split; [constructor|done].
  - cbn [List.filter]. destruct (is_config_name k) eqn:Hk; cbn [negb].
    + rewrite IH. unfold is_config_name in Hk.
      apply existsb_exists in Hk as (k' & Hin & Heq).
      apply String.eqb_eq in Heq as <-.
      split; [by constructor|by inversion 1].
    + split; [done|]. inversion 1 as [|? ? Hin _]; subst.
      assert (is_config_name k = true) as Hex; [|congruence].
      apply existsb_exists. exists k. split; [done|apply String.eqb_refl].
Qed.

(** C9, as stated: every keyword argument that is none of the four is named
    by the [TypeError].  It is not so: with two such arguments one message
    would have to name both. *)
Lemma init_cannot_name_every_unexpected_keyword :
  ~ (forall (C : view_class) (self : loc) (kwargs : kwargs) (h : heap) k,
       In k (dict_keys kwargs) -> ~ In k config_names ->
       fst (GenericView.__init__ C self kwargs h)
       = Raise (TypeError (GenericView.unexpected_keyword k))).
Proof.
  intros Hall.
  pose (kw := [("foo", VInt 1); ("bar", VInt 2)] : kwargs).
  assert (Hfoo := Hall GenericView_class 1%positive kw ∅ "foo"
            ltac:(cbn; tauto) ltac:(cbn; intuition discriminate)).
  assert (Hbar := Hall GenericView_class 1%positive kw ∅ "bar"
            ltac:(cbn; tauto) ltac:(cbn; intuition discriminate)).
  rewrite Hfoo in Hbar. vm_compute in Hbar. discriminate Hbar.
Qed.

(** C9, amended: [GenericView.__init__] raises [TypeError] naming one
    unexpected keyword argument, the first in iteration order among those
    that are none of the four configuration names, and it returns exactly
    when every keyword argument is one of the four. *)
Theorem init_unexpected_keyword (C : view_class) (self : loc)
    (kwargs : kwargs) (h : heap) :
  fst (GenericView.__init__ C self kwargs h)
  = match unexpected kwargs with
    | [] => Return tt
    | k :: _ => Raise (TypeError (GenericView.unexpected_keyword k))
    end
  /\ (forall k rest, unexpected kwargs = k :: rest ->
        In k (dict_keys kwargs) /\ ~ In k config_names)
  /\ (fst (GenericView.__init__ C self kwargs h) = Return tt <->
      List.Forall (fun k => In k config_names) (dict_keys kwargs)).
Proof.
  rewrite init_run. cbn [fst]. split; [done|]. split; [apply unexpected_head|].
  rewrite <- unexpected_nil. by destruct (unexpected kwargs).
Qed.

Lemma configured_defaults C kwargs d :
  configured C kwargs GenericView.defaults d
  = <["template_name" := config_value C kwargs "template_name" VNone]>
      (<["template_loader" := config_value C kwargs "template_loader" VNone]>
         (<["mimetype" := config_value C kwargs "mimetype" (VStr "text/html")]>
            (<["context_processors" :=
                 config_value C kwargs "context_processors" VNone]> d))).
Proof. reflexivity. Qed.

Lemma configured_other C kwargs d k :
  ~ In k config_names ->
  configured C kwargs GenericView.defaults d !! k = d !! k.
Proof.
  intros Hk. rewrite configured_defaults.
  rewrite !lookup_insert_ne; [done|..]; intros <-; apply Hk; cbn; tauto.
Qed.

Lemma getattr_self_dict C self k (h : heap) d v :
  h !! self = Some d -> d !! k = Some v ->
  getattr_self C self k h = (Return v, h).
Proof.
  intros Hd Hk. unfold getattr_self, attr. rewrite Hd. cbn. by rewrite Hk.
Qed.

(** C6: [GenericView.__init__] sets exactly the four configuration
    attributes on the instance, each the keyword argument if given, else the
    class attribute if present, else the default ([mimetype]: 'text/html',
    the others: None); and these are the values that
    [get_context_processors], [get_mimetype], [get_template_loader] and
    [get_template_names] read afterwards. *)
Theorem init_sets_config `{Django} (C : view_class) (self : loc)
    (kwargs : kwargs) (h : heap) (d : gmap string value)
    (request obj : value) :
  h !! self = Some d ->
  let h' := snd (GenericView.__init__ C self kwargs h) in
  let d' := configured C kwargs GenericView.defaults d in
  h' = <[self := d']> h
  /\ d' !! "context_processors"
     = Some (config_value C kwargs "context_processors" VNone)
  /\ d' !! "mimetype" = Some (config_value C kwargs "mimetype" (VStr "text/html"))
  /\ d' !! "template_loader" = Some (config_value C kwargs "template_loader" VNone)
  /\ d' !! "template_name" = Some (config_value C kwargs "template_name" VNone)
  /\ (forall k, ~ In k config_names -> d' !! k = d !! k)
  /\ GenericView.get_context_processors C self request obj h'
     = (Return (config_value C kwargs "context_processors" VNone), h')
  /\ GenericView.get_mimetype C self request obj h'
     = (Return (config_value C kwargs "mimetype" (VStr "text/html")), h')
  /\ GenericView.get_template_loader C self request obj h'
     = (Return (let v := config_value C kwargs "template_loader" VNone in
                if truthy v then v else django_template_loader), h')
  /\ GenericView.get_template_names C self request obj h'
     = (Return (names_of (config_value C kwargs "template_name" VNone)), h').
Proof.
  intros Hd h' d'.
  assert (Hh' : h' = <[self := d']> h).
  { subst h' d'. rewrite init_run. cbn [snd]. by apply alter_alt_Some. }
  assert (Hself : h' !! self = Some d') by (rewrite Hh'; apply lookup_insert_eq).
  assert (Hcp : d' !! "context_processors"
                = Some (config_value C kwargs "context_processors" VNone)).
  { subst d'. rewrite configured_defaults.
    rewrite !lookup_insert_ne by done. apply lookup_insert_eq. }
  assert (Hmt : d' !! "mimetype"
                = Some (config_value C kwargs "mimetype" (VStr "text/html"))).
  { subst d'. rewrite configured_defaults.
    rewrite !lookup_insert_ne by done. apply lookup_insert_eq. }
  assert (Htl : d' !! "template_loader"
                = Some (config_value C kwargs "template_loader" VNone)).
  { subst d'. rewrite configured_defaults.
    rewrite !lookup_insert_ne by done. apply lookup_insert_eq. }
  assert (Htn : d' !! "template_name"
                = Some (config_value C kwargs "template_name" VNone)).
  { subst d'. rewrite configured_defaults. apply lookup_insert_eq. }
  repeat split; try done.
  - intros k Hk. by apply configured_other.
  - unfold GenericView.get_context_processors.
    by apply (getattr_self_dict _ _ _ _ d').
  - unfold GenericView.get_mimetype. by apply (getattr_self_dict _ _ _ _ d').
  - unfold GenericView.get_template_loader, bind.
    by rewrite (getattr_self_dict _ _ _ _ d' _ Hself Htl).
  - unfold GenericView.get_template_names, bind.
    rewrite (getattr_self_dict _ _ _ _ d' _ Hself Htn).
    by destruct (config_value C kwargs "template_name" VNone).
Qed.

(** A run of C6: the keyword argument wins over the class attribute, the
    class attribute over the default. *)
Lemma init_sets_config_witness :
  ({[1%positive := ∅]} : heap) !! 1%positive = Some ∅ /\
  let h' := snd (GenericView.__init__ json_view 1%positive
                   [("template_name", VStr "kw.html")] {[1%positive := ∅]}) in
  GenericView.get_mimetype json_view 1%positive (VObj 7) VNone h'
  = (Return (VStr "application/json"), h')
  /\ GenericView.get_template_names json_view 1%positive (VObj 7) VNone h'
     = (Return (VList [VStr "kw.html"]), h')
  /\ GenericView.get_context_processors json_view 1%positive (VObj 7) VNone h'
     = (Return VNone, h').
Proof.
  assert (Hself : ({[1%positive := ∅]} : heap) !! 1%positive = Some ∅)
    by reflexivity.
  split; [exact Hself|].
  destruct (@init_sets_config demo_django json_view 1%positive
              [("template_name", VStr "kw.html")] {[1%positive := ∅]} ∅
              (VObj 7) VNone Hself)
    as (_ & _ & _ & _ & _ & _ & Hcp & Hmt & _ & Htn).
  split; [exact Hmt|split; [exact Htn|exact Hcp]].
Defined.

(** *** get_template_names and get_template *)

(** C10, as stated: [get_template_names] always returns a list-shaped
    value.  It is not so: a [template_name] that is neither None, a string
    nor a sequence comes back as it is. *)
Lemma get_template_names_not_always_a_list :
  ~ (forall (C : view_class) (self : loc) (request obj : value)
            (h h' : heap) names,
       GenericView.get_template_names C self request obj h
       = (Return names, h') ->
       is_list_shaped names = true).
Proof.
  intros Hall.
  pose (h := {[1%positive := {["template_name" := VInt 42]}]} : heap).
  assert (Hrun : GenericView.get_template_names GenericView_class 1%positive
                   (VObj 7) VNone h = (Return (VInt 42), h)) by reflexivity.
  apply Hall in Hrun. discriminate Hrun.
Qed.

(** C10, amended: [get_template_names] returns the empty list when
    [template_name] is None, the singleton list of it when it is a string,
    and the [template_name] value itself unchanged in every other case; the
    result is list-shaped exactly when [template_name] is None, a string, or
    itself a list or a tuple. *)
Theorem get_template_names_cases (C : view_class) (self : loc)
    (request obj template_name : value) (h : heap) :
  getattr_self C self "template_name" h = (Return template_name, h) ->
  GenericView.get_template_names C self request obj h
  = (Return (names_of template_name), h)
  /\ (template_name = VNone -> names_of template_name = VList [])
  /\ (is_basestring template_name = true ->
      names_of template_name = VList [template_name])
  /\ (template_name <> VNone -> is_basestring template_name = false ->
      names_of template_name = template_name)
  /\ (is_list_shaped (names_of template_name) = true <->
      template_name = VNone \/ is_basestring template_name = true
      \/ is_list_shaped template_name = true).
Proof.
  intros Hattr. split.
  { unfold GenericView.get_template_names, bind. rewrite Hattr.
    by destruct template_name. }
  split; [by intros ->|].
  split; [by destruct template_name|].
  split; [by destruct template_name|].
  destruct template_name; cbn; split; intros Hx; try done;
    try (by left); try (by right; left); try (by right; right);
    destruct Hx as [Hx|[Hx|Hx]]; done.
Qed.

(** A run of C10: a tuple of names is handed on as it is. *)
Lemma get_template_names_cases_witness :
  let h : heap :=
    {[1%positive := {["template_name" := VTuple [VStr "a.html"; VStr "b.html"]]}]} in
  getattr_self GenericView_class 1%positive "template_name" h
  = (Return (VTuple [VStr "a.html"; VStr "b.html"]), h)
  /\ GenericView.get_template_names GenericView_class 1%positive (VObj 7) VNone h
     = (Return (VTuple [VStr "a.html"; VStr "b.html"]), h).
Proof.
  intros h.
  assert (Hattr : getattr_self GenericView_class 1%positive "template_name" h
                  = (Return (VTuple [VStr "a.html"; VStr "b.html"]), h))
    by reflexivity.
  split; [exact Hattr|].
  exact (proj1 (get_template_names_cases GenericView_class 1%positive
                  (VObj 7) VNone _ h Hattr)).
Defined.

(** *** GenericView.__call__ *)

Section Call.
Context `{Django}.
Variable G : namespace.
Variable C : view_class.
Variables (self : loc) (request object : value).

Lemma call_sequence_run (h : heap) :
  call_sequence G C self request object h
    (GenericView.__call__ G C self request object h).
Proof.
  unfold GenericView.__call__, bind.
  destruct (GenericView.self_get_template G C self request object h)
    as [[template|e] h1] eqn:Ht; [|by apply seq_template_raises].
  destruct (GenericView.self_get_context G C self request object VNone h1)
    as [[context|e] h2] eqn:Hc; [|by eapply seq_context_raises].
  destruct (GenericView.self_get_mimetype C self request object h2)
    as [[mimetype|e] h3] eqn:Hm; [|by eapply seq_mimetype_raises].
  eapply seq_response; [done..|].
  unfold ret.
  by destruct (GenericView.self_get_response G C self request object template
                 context [("mimetype", mimetype)] h3) as [[response|e] h4].
Qed.

(** The sequence leaves one outcome only. *)
Lemma call_sequence_unique (h : heap) out :
  call_sequence G C self request object h out ->
  GenericView.__call__ G C self request object h = out.
Proof.
  intros Hseq. unfold GenericView.__call__, bind.
  destruct Hseq as [h e h1 Ht|h t h1 e h2 Ht Hc|h t h1 c h2 e h3 Ht Hc Hm
                    |h t h1 c h2 m h3 out Ht Hc Hm Hr].
  - by rewrite Ht.
  - by rewrite Ht, Hc.
  - by rewrite Ht, Hc, Hm.
  - rewrite Ht, Hc, Hm, Hr. unfold ret. by destruct out as [[?|?] ?].
Qed.

(** A call that returns went through all four methods. *)
Lemma call_sequence_run_inv (h h' : heap) response :
  GenericView.__call__ G C self request object h = (Return response, h') ->
  exists template h1 context h2 mimetype h3,
    GenericView.self_get_template G C self request object h
    = (Return template, h1)
    /\ GenericView.self_get_context G C self request object VNone h1
       = (Return context, h2)
    /\ GenericView.self_get_mimetype C self request object h2
       = (Return mimetype, h3)
    /\ GenericView.self_get_response G C self request object template context
         [("mimetype", mimetype)] h3 = (Return response, h').
Proof.
  intros Hcall. pose proof (call_sequence_run h) as Hseq. rewrite Hcall in Hseq.
  inversion Hseq as [| | |h0 t h1 c h2 m h3 out Ht Hc Hm Hr]; subst.
  by exists t, h1, c, h2, m, h3.
Qed.

(** C5, amended: [GenericView.__call__] invokes [self.get_template], then
    [self.get_context], then [self.get_mimetype], then [self.get_response]
    with that template, that context and [mimetype=] that mimetype, each
    once, in this order, each on the state the one before left; it stops at
    the first that raises, whose exception is the outcome, and when all four
    return, the outcome is that of [get_response]. *)
Theorem call_runs_the_sequence (h : heap) (out : result value * heap) :
  GenericView.__call__ G C self request object h = out <->
  call_sequence G C self request object h out.
Proof.
  split; [intros <-; apply call_sequence_run|apply call_sequence_unique].
Qed.

End Call.

(** C5, as stated: for every request the call goes through the four steps
    and returns a response.  It is not so: on a [GenericView] made without a
    template name, [get_template] raises and the call returns nothing. *)
Lemma call_does_not_always_respond :
  ~ (forall (D : Django) (G : namespace) (C : view_class) (self : loc)
            (request object : value) (h : heap),
       exists response h',
         @GenericView.__call__ D G C self request object h
         = (Return response, h')).
Proof.
  intros Hall.
  destruct (Hall demo_django views_globals GenericView_class 1%positive
              (VObj 7) VNone (made GenericView_class []))
    as (response & h' & Hrun).
  vm_compute in Hrun. discriminate Hrun.
Qed.

(** *** The guard of get_template *)

Section Guard.
Context `{Django}.
Variable C : view_class.
Variables (self : loc) (request object : value).

(** What the guard of [get_template] does once [get_template_names] has
    returned a false value: the name [ImproperlyConfigured] is looked up
    first, and the exception is made only if the module binds it. *)
Lemma get_template_guard G (h h1 : heap) names :
  GenericView.self_get_template_names C self request object h
  = (Return names, h1) ->
  truthy names = false ->
  GenericView.get_template G C self request object h
  = (Raise (if bound G "ImproperlyConfigured"
            then ImproperlyConfigured (GenericView.must_provide (cls_name C))
            else NameError "ImproperlyConfigured"), h1).
Proof.
  intros Hn Hf. unfold GenericView.get_template, bind. rewrite Hn, Hf.
  cbn [negb]. unfold load_global. by destruct (bound G "ImproperlyConfigured").
Qed.

(** C2, on the code: for a view whose [template_name] is None, with
    [get_template] and [get_template_names] inherited, the call raises
    [NameError]: the module never imports [ImproperlyConfigured], so the
    configuration error is not raised. *)
Theorem missing_template_name_raises_NameError (h : heap) :
  def_get_template C = None ->
  def_get_template_names C = None ->
  getattr_self C self "template_name" h = (Return VNone, h) ->
  GenericView.__call__ views_globals C self request object h
  = (Raise (NameError "ImproperlyConfigured"), h)
  /\ ObjectView.__call__ views_globals C self request object h
     = (Raise (NameError "ImproperlyConfigured"), h).
Proof.
  intros Hgt Hgn Hattr.
  assert (Hnames : GenericView.self_get_template_names C self request object h
                   = (Return (VList []), h)).
  { unfold GenericView.self_get_template_names. rewrite Hgn. cbn [default].
    unfold GenericView.get_template_names, bind. by rewrite Hattr. }
  assert (Hcall : GenericView.__call__ views_globals C self request object h
                  = (Raise (NameError "ImproperlyConfigured"), h)).
  { apply call_sequence_unique, seq_template_raises.
    unfold GenericView.self_get_template. rewrite Hgt. cbn [default].
    by rewrite (get_template_guard views_globals h h (VList [])). }
  split; [done|]. unfold ObjectView.__call__, try_except. by rewrite Hcall.
Qed.

(** With the name bound, the same call raises the configuration error that
    names the class. *)
Lemma missing_template_name_with_import G (h : heap) :
  bound G "ImproperlyConfigured" = true ->
  def_get_template C = None ->
  def_get_template_names C = None ->
  getattr_self C self "template_name" h = (Return VNone, h) ->
  GenericView.__call__ G C self request object h
  = (Raise (ImproperlyConfigured (GenericView.must_provide (cls_name C))), h).
Proof.
  intros Hb Hgt Hgn Hattr.
  apply call_sequence_unique, seq_template_raises.
  unfold GenericView.self_get_template. rewrite Hgt. cbn [default].
  rewrite (get_template_guard G h h (VList [])); [by rewrite Hb| |done].
  unfold GenericView.self_get_template_names. rewrite Hgn. cbn [default].
  unfold GenericView.get_template_names, bind. by rewrite Hattr.
Qed.

End Guard.

(** C2 on [GenericView()] called with a request: [NameError]. *)
Lemma missing_template_name_raises_NameError_witness :
  let h := made GenericView_class [] in
  getattr_self GenericView_class 1%positive "template_name" h = (Return VNone, h)
  /\ @GenericView.__call__ demo_django views_globals GenericView_class
       1%positive (VObj 7) VNone h
     = (Raise (NameError "ImproperlyConfigured"), h).
Proof.
  intros h.
  assert (Hattr : getattr_self GenericView_class 1%positive "template_name" h
                  = (Return VNone, h)) by reflexivity.
  split; [exact Hattr|].
  exact (proj1 (@missing_template_name_raises_NameError demo_django
                  GenericView_class 1%positive (VObj 7) VNone h
                  eq_refl eq_refl Hattr)).
Defined.

(** *** ObjectView.__call__ and HttpRedirect *)

Section Redirect.
Context `{Django}.
Variable G : namespace.
Variable C : view_class.
Variables (self : loc) (request object : value).

(** The exception [HttpRedirect(path, ...)]: its [redirect] attribute is
    [HttpResponseRedirect(path)]. *)
Lemma HttpRedirect_carries_redirect path args (h0 h0' : heap) e :
  HttpRedirect.__init__ G path args h0 = (Return e, h0') ->
  exists redirect,
    HttpResponseRedirect path = Return redirect /\
    e = HttpRedirect (path :: args) redirect.
Proof.
  unfold HttpRedirect.__init__, bind, load_global, lift, ret, raise.
  destruct (bound G "HttpResponseRedirect"); [|done].
  destruct (HttpResponseRedirect path) as [redirect|e']; [|done].
  intros [= <- _]. by exists redirect.
Qed.

(** An exception that [get_template_names], [get_template_loader] or
    [load_template] raises inside the inherited [get_template] leaves it
    unchanged, and so does one that [get_context_processors] raises inside
    the inherited [get_context]. *)
Lemma get_template_names_raise_propagates (h h1 : heap) e :
  GenericView.self_get_template_names C self request object h = (Raise e, h1) ->
  GenericView.get_template G C self request object h = (Raise e, h1).
Proof. intros Hn. unfold GenericView.get_template, bind. by rewrite Hn. Qed.

Lemma load_template_raise_propagates (h h1 h2 : heap) names e :
  GenericView.self_get_template_names C self request object h
  = (Return names, h1) ->
  truthy names = true ->
  GenericView.self_load_template C self request object names h1 = (Raise e, h2) ->
  GenericView.get_template G C self request object h = (Raise e, h2).
Proof.
  intros Hn Ht Hl. unfold GenericView.get_template, bind. by rewrite Hn, Ht.
Qed.

Lemma get_template_loader_raise_propagates (h h1 : heap) names e :
  GenericView.self_get_template_loader C self request object h = (Raise e, h1) ->
  GenericView.load_template C self request object names h = (Raise e, h1).
Proof. intros Hl. unfold GenericView.load_template, bind. by rewrite Hl. Qed.

Lemma get_context_processors_raise_propagates (h h1 : heap) context e :
  GenericView.self_get_context_processors C self request object h
  = (Raise e, h1) ->
  GenericView.get_context G C self request object context h = (Raise e, h1).
Proof. intros Hp. unfold GenericView.get_context, bind. by rewrite Hp. Qed.

(** C1: when a method invoked during the call raises [HttpRedirect(path)],
    [ObjectView.__call__] does not let it through: it returns the response
    the exception carries in [redirect], which is
    [HttpResponseRedirect(path)]. *)
Theorem ObjectView_call_returns_the_redirect (h h' h0 h0' : heap) path args e :
  HttpRedirect.__init__ G path args h0 = (Return e, h0') ->
  method_raises G C self request object h e h' ->
  exists redirect,
    HttpResponseRedirect path = Return redirect /\
    ObjectView.__call__ G C self request object h = (Return redirect, h').
Proof.
  intros Hinit Hraises.
  apply HttpRedirect_carries_redirect in Hinit as (redirect & Hredirect & ->).
  exists redirect. split; [done|].
  apply call_sequence_unique in Hraises.
  unfold ObjectView.__call__, try_except. by rewrite Hraises.
Qed.

(** Any other exception goes through [ObjectView.__call__] as it is, and
    what [GenericView.__call__] returns is returned. *)
Lemma ObjectView_call_raises (h h' : heap) e :
  ObjectView.__call__ G C self request object h = (Raise e, h') <->
  GenericView.__call__ G C self request object h = (Raise e, h')
  /\ forall args redirect, e <> HttpRedirect args redirect.
Proof.
  unfold ObjectView.__call__, try_except.
  destruct (GenericView.__call__ G C self request object h) as [[r|e0] h1].
  - split; [done|]. by intros [? _].
  - split.
    + destruct e0; unfold ret, raise; intros [= <- <-]; by split.
    + intros [[= -> ->] Hne]. destruct e; try done. by destruct (Hne args redirect).
Qed.

Lemma ObjectView_call_returns (h h' : heap) response :
  GenericView.__call__ G C self request object h = (Return response, h') ->
  ObjectView.__call__ G C self request object h = (Return response, h').
Proof. intros Hc. unfold ObjectView.__call__, try_except. by rewrite Hc. Qed.

End Redirect.

(** A run of C1: the example of the docstring. *)
Lemma ObjectView_call_returns_the_redirect_witness :
  let h := made denied_view [] in
  let path := VStr "/auth/permission_denied/" in
  @HttpRedirect.__init__ demo_django views_globals path [] h
  = (Return (HttpRedirect [path] (VTuple [VInt 302; path])), h)
  /\ @ObjectView.__call__ demo_django views_globals denied_view 1%positive
       (VObj 7) VNone h
     = (Return (VTuple [VInt 302; path]), h).
Proof.
  intros h path.
  assert (Hinit : @HttpRedirect.__init__ demo_django views_globals path [] h
                  = (Return (HttpRedirect [path] (VTuple [VInt 302; path])), h))
    by reflexivity.
  assert (Hraises : @method_raises demo_django views_globals denied_view
                      1%positive (VObj 7) VNone h
                      (HttpRedirect [path] (VTuple [VInt 302; path])) h).
  { eapply seq_context_raises; reflexivity. }
  split; [exact Hinit|].
  destruct (@ObjectView_call_returns_the_redirect demo_django views_globals
              denied_view 1%positive (VObj 7) VNone h h h h path [] _
              Hinit Hraises) as (redirect & Hredirect & Hcall).
  injection Hredirect as <-. exact Hcall.
Defined.

(** *** Where the code raises and what it handles *)


Section Raises.
Context `{Django}.
Variable G : namespace.
Variable C : view_class.
Variables (self : loc) (request object : value).





Lemma get_template_raises (h h' : heap) e :
  GenericView.get_template G C self request object h = (Raise e, h') <->
  GenericView.self_get_template_names C self request object h = (Raise e, h')
  \/ (exists names h1,
        GenericView.self_get_template_names C self request object h
        = (Return names, h1) /\ truthy names = true /\
        GenericView.self_load_template C self request object names h1
        = (Raise e, h'))
  \/ (exists names,
        GenericView.self_get_template_names C self request object h
        = (Return names, h') /\ truthy names = false /\
        e = if bound G "ImproperlyConfigured"
            then ImproperlyConfigured (GenericView.must_provide (cls_name C))
            else NameError "ImproperlyConfigured").
Proof.
  destruct (GenericView.self_get_template_names C self request object h)
    as [[names|e0] h1] eqn:Hn.
  - destruct (truthy names) eqn:Ht.
    + unfold GenericView.get_template, bind. rewrite Hn, Ht. cbn [negb].
      split.
      * intros Hl. right. left. by exists names, h1.
      * intros [[=]|[(names' & h1' & [= <- <-] & _ & Hl)
                    |(names' & [= <- _] & Hf & _)]]; [done|congruence].
    + rewrite (get_template_guard C self request object G h h1 names Hn Ht).
      split.
      * intros [= <- <-]. right. right. by exists names.
      * intros [[=]|[(names' & h1' & [= <- <-] & Ht' & _)
                    |(names' & [= <- <-] & _ & ->)]]; [congruence|done].
  - rewrite (get_template_names_raise_propagates G C self request object
               h h1 e0 Hn).
    split; [by left|].
    by intros [?|[(names & h2 & [=] & _)|(names & [=] & _)]].
Qed.




End Raises.

(** *** The configuration attributes at call time *)

Section Frame.
Context `{Django}.
Variable G : namespace.
Variable C : view_class.
Variables (self : loc) (request object : value).

Lemma keeps_bind {A B} (m : M A) (k : A -> M B) :
  keeps_config self m -> (forall a, keeps_config self (k a)) ->
  keeps_config self (bind m k).
Proof.
  intros Hm Hk h name Hin. unfold bind.
  specialize (Hm h name Hin). destruct (m h) as [[a|e] h1]; cbn [snd] in *.
  - by rewrite (Hk a h1 name Hin).
  - done.
Qed.

Lemma keeps_try {A} (m : M A) (handler : exn -> M A) :
  keeps_config self m -> (forall e, keeps_config self (handler e)) ->
  keeps_config self (try_except m handler).
Proof.
  intros Hm Hk h name Hin. unfold try_except.
  specialize (Hm h name Hin). destruct (m h) as [[a|e] h1]; cbn [snd] in *.
  - done.
  - by rewrite (Hk e h1 name Hin).
Qed.

Lemma keeps_ret {A} (a : A) : keeps_config self (ret a).
Proof. by intros h name Hin. Qed.

Lemma keeps_raise {A} e : keeps_config self (@raise A e).
Proof. by intros h name Hin. Qed.

Lemma keeps_lift {A} (r : result A) : keeps_config self (lift r).
Proof. by intros h name Hin. Qed.

Lemma keeps_load_global name : keeps_config self (load_global G name).
Proof. unfold load_global. destruct (bound G name); [apply keeps_ret|apply keeps_raise]. Qed.

Lemma keeps_getattr_self name : keeps_config self (getattr_self C self name).
Proof.
  intros h k Hin. unfold getattr_self.
  destruct (attr h self name); [done|]. by destruct (dict_get name (cls_attrs C)).
Qed.

Hypothesis Hover : overrides_keep_config C self request object.

Lemma keeps_get_template : keeps_config self (GenericView.self_get_template G C self request object).
Proof.
  destruct Hover as (Hgt & Hgn & Hlt & Hgl & _).
  unfold GenericView.self_get_template.
  destruct (def_get_template C) as [f|] eqn:Hf; cbn [default]; [by apply Hgt|].
  unfold GenericView.get_template. apply keeps_bind.
  - unfold GenericView.self_get_template_names.
    destruct (def_get_template_names C) as [f|]; cbn [default]; [by apply Hgn|].
    unfold GenericView.get_template_names. apply keeps_bind; [apply keeps_getattr_self|].
    intros v. destruct v; apply keeps_ret.
  - intros names. destruct (negb (truthy names)).
    + apply keeps_bind; [apply keeps_load_global|intros; apply keeps_raise].
    + unfold GenericView.self_load_template.
      destruct (def_load_template C) as [f|]; cbn [default]; [by apply Hlt|].
      unfold GenericView.load_template. apply keeps_bind; [|intros; apply keeps_lift].
      unfold GenericView.self_get_template_loader.
      destruct (def_get_template_loader C) as [f|]; cbn [default]; [by apply Hgl|].
      unfold GenericView.get_template_loader.
      apply keeps_bind; [apply keeps_getattr_self|intros; apply keeps_ret].
Qed.

Lemma keeps_get_context context :
  keeps_config self (GenericView.self_get_context G C self request object context).
Proof.
  destruct Hover as (_ & _ & _ & _ & Hgc & Hcp & _).
  unfold GenericView.self_get_context.
  destruct (def_get_context C) as [f|]; cbn [default]; [by apply Hgc|].
  unfold GenericView.get_context. apply keeps_bind.
  - unfold GenericView.self_get_context_processors.
    destruct (def_get_context_processors C) as [f|]; cbn [default]; [by apply Hcp|].
    apply keeps_getattr_self.
  - intros processors.
    apply keeps_bind; [apply keeps_load_global|intros; apply keeps_lift].
Qed.

Lemma keeps_get_mimetype :
  keeps_config self (GenericView.self_get_mimetype C self request object).
Proof.
  destruct Hover as (_ & _ & _ & _ & _ & _ & Hgm & _).
  unfold GenericView.self_get_mimetype.
  destruct (def_get_mimetype C) as [f|]; cbn [default]; [by apply Hgm|].
  apply keeps_getattr_self.
Qed.

Lemma keeps_get_response template context kw :
  keeps_config self
    (GenericView.self_get_response G C self request object template context kw).
Proof.
  destruct Hover as (_ & _ & _ & _ & _ & _ & _ & Hgr).
  unfold GenericView.self_get_response.
  destruct (def_get_response C) as [f|]; cbn [default]; [by apply Hgr|].
  unfold GenericView.get_response.
  apply keeps_bind; [apply keeps_load_global|intros].
  apply keeps_bind; [apply keeps_lift|intros; apply keeps_lift].
Qed.

Lemma keeps_GenericView_call :
  keeps_config self (GenericView.__call__ G C self request object).
Proof.
  unfold GenericView.__call__.
  apply keeps_bind; [apply keeps_get_template|intros template].
  apply keeps_bind; [apply keeps_get_context|intros context].
  apply keeps_bind; [apply keeps_get_mimetype|intros mimetype].
  apply keeps_bind; [apply keeps_get_response|intros; apply keeps_ret].
Qed.

End Frame.

(** C8, as stated: calling any view leaves the four configuration
    attributes as they were.  It is not so: a class may define a method that
    writes one, as the [get_context] of [CsvView] does with [mimetype]. *)
Lemma call_can_change_the_configuration :
  ~ (forall (D : Django) (G : namespace) (C : view_class) (self : loc)
            (request object : value) (h : heap) (k : string),
       In k config_names ->
       attr (snd (@GenericView.__call__ D G C self request object h)) self k
       = attr h self k
       /\ attr (snd (@ObjectView.__call__ D G C self request object h)) self k
          = attr h self k).
Proof.
  intros Hall.
  destruct (Hall demo_django views_globals csv_view 1%positive (VObj 7) VNone
              (made csv_view []) "mimetype" ltac:(cbn; tauto)) as [Hcall _].
  vm_compute in Hcall. discriminate Hcall.
Qed.

(** The classes of the module itself define nothing over [GenericView]. *)
Lemma plain_class_keeps_config name (self : loc) (request object : value) :
  overrides_keep_config (plain_class name) self request object.
Proof. unfold overrides_keep_config. cbn. by repeat split. Qed.

(** C8, amended: calling a view, by [GenericView.__call__] or by
    [ObjectView.__call__], leaves the four configuration attributes of the
    instance as they were, provided the methods its class defines over
    those of [GenericView] leave them as they were: the code of the module
    reads them and never writes them at call time. *)
Theorem call_keeps_the_configuration `{Django} (G : namespace)
    (C : view_class) (self : loc) (request object : value) (h : heap)
    (k : string) :
  overrides_keep_config C self request object ->
  In k config_names ->
  attr (snd (GenericView.__call__ G C self request object h)) self k
  = attr h self k
  /\ attr (snd (ObjectView.__call__ G C self request object h)) self k
     = attr h self k.
Proof.
  intros Hover Hk.
  pose proof (keeps_GenericView_call G C self request object Hover) as Hcall.
  split; [by apply Hcall|].
  unfold ObjectView.__call__.
  apply (keeps_try self); [done| |done].
  intros e. destruct e; first [apply keeps_ret|apply keeps_raise].
Qed.

Lemma denied_view_keeps_config :
  overrides_keep_config denied_view 1%positive (VObj 7) VNone.
Proof.
  unfold overrides_keep_config, denied_view; cbn.
  repeat split; intros f Hf; try discriminate Hf.
  injection Hf as <-. intros context h k Hin. reflexivity.
Defined.

(** A run of C8: after the redirect of the docstring example, [mimetype] is
    what the constructor set. *)
Lemma call_keeps_the_configuration_witness :
  let h := made denied_view [] in
  overrides_keep_config denied_view 1%positive (VObj 7) VNone
  /\ In "mimetype" config_names
  /\ attr (snd (@ObjectView.__call__ demo_django views_globals denied_view
                  1%positive (VObj 7) VNone h)) 1%positive "mimetype"
     = Some (VStr "text/html").
Proof.
  intros h.
  assert (Hin : In "mimetype" config_names) by (cbn; tauto).
  split; [exact denied_view_keeps_config|]. split; [exact Hin|].
  rewrite (proj2 (@call_keeps_the_configuration demo_django views_globals
                    denied_view 1%positive (VObj 7) VNone h "mimetype"
                    denied_view_keeps_config Hin)).
  reflexivity.
Defined.

(** *** instantiator *)

Lemma construct_run cls kwargs (h : heap) :
  construct cls kwargs h
  = let self := fresh (dom h) in
    match cls___init__ cls self kwargs (<[self := ∅]> h) with
    | (Return _, h1) => (Return self, h1)
    | (Raise e, h1) => (Raise e, h1)
    end.
Proof.
  unfold construct, bind, new_object. cbn zeta.
  by destruct (cls___init__ cls (fresh (dom h)) kwargs _) as [[[]|e] h1].
Qed.

Lemma construct_fresh cls kwargs (h h1 : heap) self :
  construct cls kwargs h = (Return self, h1) ->
  h !! self = None /\
  cls___init__ cls self kwargs (<[self := ∅]> h) = (Return tt, h1).
Proof.
  rewrite construct_run. cbn zeta.
  destruct (cls___init__ cls (fresh (dom h)) kwargs _) as [[[]|e] h'] eqn:Hinit;
    [|done].
  intros [= <- <-]. split; [|done].
  apply not_elem_of_dom. apply is_fresh.
Qed.

(** When the constructor raises, so does the returned function. *)
Lemma new_instance_constructor_raises cls kwargs request object (h h1 : heap) e :
  construct cls kwargs h = (Raise e, h1) ->
  instantiator cls kwargs request object h = (Raise e, h1).
Proof. intros Hc. unfold instantiator, new_instance, bind. by rewrite Hc. Qed.

(** C3: at every invocation, the function that [instantiator] returns
    constructs an instance of the class with the keyword arguments given to
    [instantiator] and returns what calling that instance returns.  The
    instance is new: it is no object that exists when the function is
    invoked, hence none that an earlier invocation made, and the next
    invocation makes another one. *)
Theorem instantiator_calls_a_new_instance (cls : instantiable)
    (kwargs : kwargs) (request object : value) (h h1 : heap) (self : loc) :
  construct cls kwargs h = (Return self, h1) ->
  h !! self = None
  /\ cls___init__ cls self kwargs (<[self := ∅]> h) = (Return tt, h1)
  /\ instantiator cls kwargs request object h
     = cls___call__ cls self request object h1
  /\ (forall request' object' out h2 self' h3,
        instantiator cls kwargs request object h = (out, h2) ->
        is_Some (h2 !! self) ->
        construct cls kwargs h2 = (Return self', h3) ->
        self' <> self /\
        instantiator cls kwargs request' object' h2
        = cls___call__ cls self' request' object' h3).
Proof.
  intros Hc. destruct (construct_fresh _ _ _ _ _ Hc) as [Hnew Hinit].
  assert (Hrun : forall rq ob (h h1 : heap) self,
             construct cls kwargs h = (Return self, h1) ->
             instantiator cls kwargs rq ob h = cls___call__ cls self rq ob h1).
  { intros rq ob h0 h0' self0 Hc0.
    unfold instantiator, new_instance, bind. by rewrite Hc0. }
  split; [done|]. split; [done|]. split; [by apply Hrun|].
  intros request' object' out h2 self' h3 _ Halive Hc'.
  split; [|by apply Hrun].
  destruct (construct_fresh _ _ _ _ _ Hc') as [Hnew' _].
  intros ->. rewrite Hnew' in Halive. by destruct Halive.
Qed.

(** A run of C3: two invocations, two instances, each configured from the
    keyword arguments and called. *)
Lemma instantiator_calls_a_new_instance_witness :
  let kwargs := [("mimetype", VStr "text/plain")] in
  let response := VTuple [VInt 200; VStr "<html></html>"; VStr "text/plain"] in
  let h1 := made hello_view kwargs in
  construct hello_type kwargs ∅ = (Return 1%positive, h1)
  /\ instantiator hello_type kwargs (VObj 7) VNone ∅ = (Return response, h1)
  /\ fst (construct hello_type kwargs h1) = Return 2%positive
  /\ fst (instantiator hello_type kwargs (VObj 8) VNone h1) = Return response.
Proof.
  intros kwargs response h1.
  assert (Hc : construct hello_type kwargs ∅ = (Return 1%positive, h1))
    by reflexivity.
  destruct (instantiator_calls_a_new_instance hello_type kwargs (VObj 7) VNone
              ∅ h1 1%positive Hc) as (_ & _ & Hrun & _).
  split; [exact Hc|]. split; [rewrite Hrun; reflexivity|].
  split; reflexivity.
Defined.

(** *** ObjectViewMeta.__new__ *)

Section Decorators.
Context {callable : Type}.
Implicit Types (cls : ObjectViewMeta.pyclass callable).
Implicit Types (ds : list (ObjectViewMeta.decorator callable)).

Lemma for_decorators_app ds1 ds2 : forall cls (h : heap),
  ObjectViewMeta.for_decorators (ds1 ++ ds2) cls h
  = (cls' <- ObjectViewMeta.for_decorators ds1 cls ;;
     ObjectViewMeta.for_decorators ds2 cls') h.
Proof.
  induction ds1 as [|d ds1 IH]; intros cls h; [done|].
  cbn [app ObjectViewMeta.for_decorators]. unfold bind.
  destruct (d (ObjectViewMeta.c___call__ cls) h) as [[c|e] h1]; [|done].
  rewrite IH. reflexivity.
Qed.

Lemma for_decorators_rev ds : forall cls (h : heap),
  ObjectViewMeta.for_decorators (rev ds) cls h
  = (call <- nested ds (ObjectViewMeta.c___call__ cls) ;;
     ret (ObjectViewMeta.set___call__ cls call)) h.
Proof.
  induction ds as [|d ds IH]; intros cls h.
  - by destruct cls.
  - cbn [rev]. rewrite for_decorators_app. unfold bind at 1. rewrite IH.
    change (nested (d :: ds) (ObjectViewMeta.c___call__ cls))
      with (c <- nested ds (ObjectViewMeta.c___call__ cls) ;; d c).
    unfold bind.
    destruct (nested ds (ObjectViewMeta.c___call__ cls) h) as [[c|e] h1]; [|done].
    cbn [ObjectViewMeta.for_decorators]. unfold bind, ret.
    cbn [ObjectViewMeta.set___call__ ObjectViewMeta.c___call__].
    destruct (d c h1) as [[c'|e] h2]; reflexivity.
Qed.

(** Decorators that only wrap: the outcome is the plain nesting. *)
Lemma nested_pure (fs : list (callable -> callable)) call (h : heap) :
  nested (List.map (fun f c => ret (f c)) fs) call h
  = (Return (foldr (fun f c => f c) call fs), h).
Proof.
  induction fs as [|f fs IH]; [done|].
  unfold nested in *. cbn [List.map foldr]. unfold bind at 1. by rewrite IH.
Qed.

(** C4: for a class that has a [decorators] attribute listing
    [d1, ..., dn], the metaclass applies them to the class's [__call__] from
    the last to the first, so that [__call__] becomes
    [d1(d2(...dn(__call__)...))], the first listed being outermost; a class
    without the attribute keeps its [__call__]. *)
Theorem metaclass_nests_the_decorators (name : string)
    (base : ObjectViewMeta.pyclass callable)
    (attrs : ObjectViewMeta.class_body callable) (h : heap) :
  ObjectViewMeta.__new__ name base attrs h
  = match ObjectViewMeta.c_decorators
            (ObjectViewMeta.type___new__ name base attrs) with
    | Some ds =>
        (call <- nested ds (ObjectViewMeta.c___call__
                              (ObjectViewMeta.type___new__ name base attrs)) ;;
         ret (ObjectViewMeta.set___call__
                (ObjectViewMeta.type___new__ name base attrs) call)) h
    | None => (Return (ObjectViewMeta.type___new__ name base attrs), h)
    end.
Proof.
  unfold ObjectViewMeta.__new__.
  destruct (ObjectViewMeta.c_decorators _) as [ds|]; [|done].
  cbn zeta. apply for_decorators_rev.
Qed.

End Decorators.

(** Three decorators, and a subclass that inherits the attribute: the
    metaclass decorates the inherited, already decorated [__call__] again. *)
Example three_decorators :
  call_of (ObjectViewMeta.__new__ "MyView" ObjectView_by_name
             {| ObjectViewMeta.body_decorators :=
                  Some [wrap "d1"; wrap "d2"; wrap "d3"];
                ObjectViewMeta.body___call__ := None |} ∅)
  = Some "d1(d2(d3(ObjectView.__call__)))".
Proof. reflexivity. Qed.

Example no_decorators :
  call_of (ObjectViewMeta.__new__ "MyView" ObjectView_by_name
             {| ObjectViewMeta.body_decorators := None;
                ObjectViewMeta.body___call__ := Some "MyView.__call__" |} ∅)
  = Some "MyView.__call__".
Proof. reflexivity. Qed.

Example inherited_decorators :
  call_of (ObjectViewMeta.__new__ "SubView"
             {| ObjectViewMeta.c_name := "MyView";
                ObjectViewMeta.c_decorators := Some [wrap "d1"];
                ObjectViewMeta.c___call__ := "d1(ObjectView.__call__)" |}
             {| ObjectViewMeta.body_decorators := None;
                ObjectViewMeta.body___call__ := None |} ∅)
  = Some "d1(d1(ObjectView.__call__))".
Proof. reflexivity. Qed.

(** *** The names the module never binds *)

Section Unbound.
Context `{Django}.
Variable C : view_class.
Variables (self : loc) (request object : value).

Example unbound_names :
  bound views_globals "ImproperlyConfigured" = false
  /\ bound views_globals "RequestContext" = false
  /\ bound views_globals "HttpResponse" = false
  /\ bound views_globals "HttpResponseRedirect" = true.
Proof. by repeat split. Qed.

(** The inherited [get_context] and [get_response] stop at the lookup of
    [RequestContext] and [HttpResponse]. *)
Lemma get_context_raises_NameError (h h1 : heap) context processors :
  GenericView.self_get_context_processors C self request object h
  = (Return processors, h1) ->
  GenericView.get_context views_globals C self request object context h
  = (Raise (NameError "RequestContext"), h1).
Proof. intros Hp. unfold GenericView.get_context, bind. by rewrite Hp. Qed.

Lemma get_response_raises_NameError (h : heap) template context kw :
  GenericView.get_response views_globals self request object template context kw h
  = (Raise (NameError "HttpResponse"), h).
Proof. reflexivity. Qed.

(** With the names bound they do what their docstrings say. *)
Lemma get_context_with_import G (h h1 : heap) processors :
  bound G "RequestContext" = true ->
  GenericView.self_get_context_processors C self request object h
  = (Return processors, h1) ->
  GenericView.get_context G C self request object VNone h
  = (RequestContext request (VDict []) processors, h1).
Proof.
  intros Hb Hp. unfold GenericView.get_context, bind, load_global.
  by rewrite Hp, Hb.
Qed.

Lemma get_response_with_import G (h : heap) template context kw :
  bound G "HttpResponse" = true ->
  GenericView.get_response G self request object template context kw h
  = (match render template context with
     | Return content => HttpResponse content kw
     | Raise e => Raise e
     end, h).
Proof.
  intros Hb. unfold GenericView.get_response, bind, load_global, lift.
  rewrite Hb. cbn. by destruct (render template context).
Qed.

(** So a class that inherits [get_context] never gets a response out of
    [GenericView.__call__]. *)
Lemma inherited_get_context_never_responds (h h' : heap) response :
  def_get_context C = None ->
  def_get_context_processors C = None ->
  GenericView.__call__ views_globals C self request object h
  <> (Return response, h').
Proof.
  intros Hgc Hcp Hcall. apply call_sequence_run_inv in Hcall.
  destruct Hcall as (template & h1 & context & h2 & mimetype & h3 & _ & Hc & _).
  unfold GenericView.self_get_context in Hc. rewrite Hgc in Hc.
  cbn [default] in Hc. unfold GenericView.get_context, bind in Hc.
  unfold GenericView.self_get_context_processors in Hc. rewrite Hcp in Hc.
  cbn [default] in Hc. unfold GenericView.get_context_processors in Hc.
  by destruct (getattr_self C self "context_processors" h1) as [[p|e] h4].
Qed.

End Unbound.

(** A whole call that returns: [HelloView] defines [get_context] and
    [get_response] itself. *)
Example hello_view_responds :
  @ObjectView.__call__ demo_django views_globals hello_view 1%positive
    (VObj 7) VNone (made hello_view [])
  = (Return (VTuple [VInt 200; VStr "<html></html>"; VStr "text/html"]),
     made hello_view []).
Proof. reflexivity. Qed.

(** [decorate_method_with] hands the decorator the method bound to [self]. *)
Lemma decorate_method_with_identity {Self Args R : Type}
    (unbound_method : Self -> Args -> M R) self args (h : heap) :
  decorate_method_with (fun f => ret f) unbound_method self args h
  = unbound_method self args h.
Proof. reflexivity. Qed.

(** *** The template a view selects *)

Lemma attr_after_init C self kwargs (h : heap) d k dflt :
  h !! self = Some d ->
  In (k, dflt) GenericView.defaults ->
  attr (snd (GenericView.__init__ C self kwargs h)) self k
  = Some (config_value C kwargs k dflt).
Proof.
  intros Hd Hin. rewrite init_run. cbn [snd].
  rewrite (alter_alt_Some _ _ _ _ Hd). unfold attr.
  rewrite lookup_insert_eq. cbn [mbind option_bind].
  rewrite configured_defaults.
  cbn in Hin. destruct Hin as [Hin|[Hin|[Hin|[Hin|[]]]]];
    injection Hin as <- <-.
  - rewrite !lookup_insert_ne by done. apply lookup_insert_eq.
  - rewrite !lookup_insert_ne by done. apply lookup_insert_eq.
  - rewrite !lookup_insert_ne by done. apply lookup_insert_eq.
  - apply lookup_insert_eq.
Qed.

Lemma getattr_self_attr C self k (h : heap) v :
  attr h self k = Some v -> getattr_self C self k h = (Return v, h).
Proof. intros Ha. unfold getattr_self. by rewrite Ha. Qed.

Lemma names_of_false v :
  truthy (names_of v) = false <->
  v = VNone \/ (is_basestring v = false /\ truthy v = false).
Proof.
  destruct v; cbn; split; intros Hx; try done;
    try (by left); try (by right);
    destruct Hx as [Hx|[Hx Hy]]; done.
Qed.

Section Template.
Context `{Django}.
Variable G : namespace.
Variable C : view_class.
Variables (self : loc) (request object : value).

(** X1: with [get_template_names] inherited, the guard of [get_template]
    fires exactly when [template_name] is None or a false value that is not
    a string (an empty list or tuple, zero); a string always passes, the
    empty string too, and is handed to [load_template] in a one-element
    list. *)
Theorem template_name_guard_cases (h : heap) (v : value) :
  def_get_template_names C = None ->
  getattr_self C self "template_name" h = (Return v, h) ->
  GenericView.get_template G C self request object h
  = (if truthy (names_of v)
     then GenericView.self_load_template C self request object (names_of v) h
     else (Raise (if bound G "ImproperlyConfigured"
                  then ImproperlyConfigured
                         (GenericView.must_provide (cls_name C))
                  else NameError "ImproperlyConfigured"), h))
  /\ (truthy (names_of v) = false <->
      v = VNone \/ (is_basestring v = false /\ truthy v = false))
  /\ (is_basestring v = true -> names_of v = VList [v]).
Proof.
  intros Hgn Hattr.
  assert (Hnames : GenericView.self_get_template_names C self request object h
                   = (Return (names_of v), h)).
  { unfold GenericView.self_get_template_names. rewrite Hgn. cbn [default].
    unfold GenericView.get_template_names, bind. rewrite Hattr.
    by destruct v. }
  split; [|split; [apply names_of_false|by destruct v]].
  destruct (truthy (names_of v)) eqn:Ht.
  - unfold GenericView.get_template, bind. by rewrite Hnames, Ht.
  - by apply (get_template_guard C self request object G h h (names_of v)).
Qed.

(** X2: on a view initialised by [GenericView.__init__] that inherits
    [get_template_names], [load_template] and [get_template_loader], and
    whose template names pass the guard, [get_template] is what
    [select_template] of the configured loader gives for the names: the
    loader is the configured [template_loader] when that is a true value and
    [django.template.loader] otherwise, also for a false value other than
    None. *)
Theorem initialised_view_selects_template (kwargs : kwargs) (h : heap)
    (d : gmap string value) :
  h !! self = Some d ->
  def_get_template_names C = None ->
  def_load_template C = None ->
  def_get_template_loader C = None ->
  truthy (names_of (config_value C kwargs "template_name" VNone)) = true ->
  GenericView.get_template G C self request object
    (snd (GenericView.__init__ C self kwargs h))
  = (select_template
       (if truthy (config_value C kwargs "template_loader" VNone)
        then config_value C kwargs "template_loader" VNone
        else django_template_loader)
       (names_of (config_value C kwargs "template_name" VNone)),
     snd (GenericView.__init__ C self kwargs h)).
Proof.
  intros Hd Hgn Hlt Hgl Ht.
  set (h' := snd (GenericView.__init__ C self kwargs h)).
  assert (Htn : getattr_self C self "template_name" h'
                = (Return (config_value C kwargs "template_name" VNone), h')).
  { apply getattr_self_attr, (attr_after_init _ _ _ _ d); [done|].
    cbn; tauto. }
  assert (Htl : getattr_self C self "template_loader" h'
                = (Return (config_value C kwargs "template_loader" VNone), h')).
  { apply getattr_self_attr, (attr_after_init _ _ _ _ d); [done|].
    cbn; tauto. }
  unfold GenericView.get_template, bind.
  unfold GenericView.self_get_template_names. rewrite Hgn. cbn [default].
  unfold GenericView.get_template_names, bind. rewrite Htn.
  assert (Hret : forall v : value,
             match v with
             | VNone => ret (VList [])
             | VStr _ | VUnicode _ => ret (VList [v])
             | _ => ret v
             end h' = (Return (names_of v), h')) by (by intros []).
  rewrite Hret, Ht. cbn [negb].
  unfold GenericView.self_load_template. rewrite Hlt. cbn [default].
  unfold GenericView.load_template, bind.
  unfold GenericView.self_get_template_loader. rewrite Hgl. cbn [default].
  unfold GenericView.get_template_loader, bind. by rewrite Htl.
Qed.

End Template.

(** A run of X1: the empty string is a template name like any other. *)
Lemma template_name_guard_cases_witness :
  let h := made GenericView_class [("template_name", VStr "")] in
  getattr_self GenericView_class 1%positive "template_name" h
  = (Return (VStr ""), h)
  /\ @GenericView.get_template echo_django views_globals GenericView_class
       1%positive (VObj 7) VNone h
     = (Return (VTuple [VObj 0; VList [VStr ""]]), h).
Proof.
  intros h.
  assert (Hattr : getattr_self GenericView_class 1%positive "template_name" h
                  = (Return (VStr ""), h)) by reflexivity.
  split; [exact Hattr|].
  rewrite (proj1 (@template_name_guard_cases echo_django views_globals
                    GenericView_class 1%positive (VObj 7) VNone h (VStr "")
                    eq_refl Hattr)).
  reflexivity.
Defined.

(** A run of X2: a false [template_loader] that is not None gives way to the
    default loader. *)
Lemma initialised_view_selects_template_witness :
  let kwargs := [("template_name", VStr "a.html"); ("template_loader", VInt 0)] in
  let h : heap := {[1%positive := ∅]} in
  h !! 1%positive = Some ∅
  /\ @GenericView.get_template echo_django views_globals GenericView_class
       1%positive (VObj 7) VNone
       (snd (GenericView.__init__ GenericView_class 1%positive kwargs h))
     = (Return (VTuple [VObj 0; VList [VStr "a.html"]]),
        snd (GenericView.__init__ GenericView_class 1%positive kwargs h)).
Proof.
  intros kwargs h.
  assert (Hd : h !! 1%positive = Some ∅) by reflexivity.
  split; [exact Hd|].
  exact (@initialised_view_selects_template echo_django views_globals
           GenericView_class 1%positive (VObj 7) VNone kwargs h ∅
           Hd eq_refl eq_refl eq_refl eq_refl).
Defined.

(** *** From construction to the response *)

Section Mimetype.
Context `{Django}.
Variable G : namespace.
Variable C : view_class.
Variables (self : loc) (request object : value).

(** X3: on a view initialised by [GenericView.__init__] that inherits
    [get_mimetype], the call hands [get_response] the keyword
    [mimetype=] the value chosen at construction (keyword argument, else
    class attribute, else 'text/html'), whatever [get_template] and
    [get_context] did in between, as long as the methods the class defines
    keep the configuration attributes. *)
Theorem response_gets_the_configured_mimetype (kwargs : kwargs)
    (h h1 h2 : heap) (d : gmap string value) (template context : value) :
  h !! self = Some d ->
  overrides_keep_config C self request object ->
  def_get_mimetype C = None ->
  GenericView.self_get_template G C self request object
    (snd (GenericView.__init__ C self kwargs h)) = (Return template, h1) ->
  GenericView.self_get_context G C self request object VNone h1
  = (Return context, h2) ->
  GenericView.__call__ G C self request object
    (snd (GenericView.__init__ C self kwargs h))
  = GenericView.self_get_response G C self request object template context
      [("mimetype", config_value C kwargs "mimetype" (VStr "text/html"))] h2.
Proof.
  intros Hd Hover Hgm Ht Hc.
  set (h0 := snd (GenericView.__init__ C self kwargs h)) in *.
  set (m := config_value C kwargs "mimetype" (VStr "text/html")).
  assert (Hin : In "mimetype" config_names) by (cbn; tauto).
  assert (Hm0 : attr h0 self "mimetype" = Some m).
  { apply (attr_after_init _ _ _ _ d); [done|]. cbn; tauto. }
  assert (Hm1 : attr h1 self "mimetype" = Some m).
  { pose proof (keeps_get_template G C self request object Hover h0 _ Hin) as Hk.
    rewrite Ht in Hk. cbn [snd] in Hk. by rewrite Hk. }
  assert (Hm2 : attr h2 self "mimetype" = Some m).
  { pose proof (keeps_get_context G C self request object Hover VNone h1 _ Hin)
      as Hk.
    rewrite Hc in Hk. cbn [snd] in Hk. by rewrite Hk. }
  unfold GenericView.__call__, bind. rewrite Ht, Hc.
  unfold GenericView.self_get_mimetype. rewrite Hgm. cbn [default].
  unfold GenericView.get_mimetype. rewrite (getattr_self_attr _ _ _ _ m Hm2).
  unfold ret.
  by destruct (GenericView.self_get_response G C self request object template
                 context [("mimetype", m)] h2) as [[response|e] h3].
Qed.

End Mimetype.

Lemma hello_view_keeps_config :
  overrides_keep_config hello_view 1%positive (VObj 7) VNone.
Proof.
  unfold overrides_keep_config, hello_view; cbn.
  repeat split; intros f Hf; try discriminate Hf; injection Hf as <-.
  - intros context h k Hin. reflexivity.
  - intros template context kw h k Hin. reflexivity.
Defined.

(** A run of X3: [mimetype='text/plain'] given to the constructor comes out
    in the response. *)
Lemma response_gets_the_configured_mimetype_witness :
  let kwargs := [("mimetype", VStr "text/plain")] in
  let h : heap := {[1%positive := ∅]} in
  let h0 := snd (GenericView.__init__ hello_view 1%positive kwargs h) in
  h !! 1%positive = Some ∅
  /\ @GenericView.__call__ demo_django views_globals hello_view 1%positive
       (VObj 7) VNone h0
     = (Return (VTuple [VInt 200; VStr "<html></html>"; VStr "text/plain"]), h0).
Proof.
  intros kwargs h h0.
  assert (Hd : h !! 1%positive = Some ∅) by reflexivity.
  split; [exact Hd|].
  etransitivity.
  - exact (@response_gets_the_configured_mimetype demo_django views_globals
             hello_view 1%positive (VObj 7) VNone kwargs h h0 h0 ∅
             (VObj 1) (VDict [(VStr "greeting", VStr "hello")])
             Hd hello_view_keeps_config eq_refl eq_refl eq_refl).
  - reflexivity.
Defined.

(** *** Views that inherit get_context or get_response *)

Section Inherited.
Context `{Django}.
Variable C : view_class.
Variables (self : loc) (request object : value).

(** X4: a class that inherits [get_context] and [get_context_processors]
    gets no response out of [GenericView.__call__]: once [get_template] has
    returned, the call raises [NameError] for [RequestContext], a name the
    module uses and never binds; [ObjectView.__call__] lets it through. *)
Theorem inherited_get_context_stops_the_call (h h1 : heap)
    (template processors : value) :
  def_get_context C = None ->
  def_get_context_processors C = None ->
  GenericView.self_get_template views_globals C self request object h
  = (Return template, h1) ->
  getattr_self C self "context_processors" h1 = (Return processors, h1) ->
  GenericView.__call__ views_globals C self request object h
  = (Raise (NameError "RequestContext"), h1)
  /\ ObjectView.__call__ views_globals C self request object h
     = (Raise (NameError "RequestContext"), h1)
  /\ forall h0 h' response,
       GenericView.__call__ views_globals C self request object h0
       <> (Return response, h').
Proof.
  intros Hgc Hcp Ht Hattr.
  assert (Hcall : GenericView.__call__ views_globals C self request object h
                  = (Raise (NameError "RequestContext"), h1)).
  { apply call_sequence_unique. eapply seq_context_raises; [exact Ht|].
    unfold GenericView.self_get_context. rewrite Hgc. cbn [default].
    apply (get_context_raises_NameError C self request object h1 h1 VNone
             processors).
    unfold GenericView.self_get_context_processors. rewrite Hcp.
    cbn [default]. exact Hattr. }
  split; [done|]. split.
  - unfold ObjectView.__call__, try_except. by rewrite Hcall.
  - intros h0 h' response. by apply inherited_get_context_never_responds.
Qed.

(** X5: a class that inherits [get_response] gets no response either, and
    its template is never rendered: when the three methods before have
    returned, the call raises [NameError] for [HttpResponse], whatever the
    framework's [render] would do. *)
Theorem inherited_get_response_never_renders (h h1 h2 h3 : heap)
    (template context mimetype : value) :
  def_get_response C = None ->
  GenericView.self_get_template views_globals C self request object h
  = (Return template, h1) ->
  GenericView.self_get_context views_globals C self request object VNone h1
  = (Return context, h2) ->
  GenericView.self_get_mimetype C self request object h2
  = (Return mimetype, h3) ->
  GenericView.__call__ views_globals C self request object h
  = (Raise (NameError "HttpResponse"), h3)
  /\ ObjectView.__call__ views_globals C self request object h
     = (Raise (NameError "HttpResponse"), h3).
Proof.
  intros Hgr Ht Hc Hm.
  assert (Hcall : GenericView.__call__ views_globals C self request object h
                  = (Raise (NameError "HttpResponse"), h3)).
  { apply call_sequence_unique. eapply seq_response; [exact Ht|exact Hc|exact Hm|].
    unfold GenericView.self_get_response. by rewrite Hgr. }
  split; [done|]. unfold ObjectView.__call__, try_except. by rewrite Hcall.
Qed.

End Inherited.

(** A run of X4: [GenericView(template_name='a.html')]. *)
Lemma inherited_get_context_stops_the_call_witness :
  let h := made GenericView_class [("template_name", VStr "a.html")] in
  @GenericView.self_get_template demo_django views_globals GenericView_class
    1%positive (VObj 7) VNone h = (Return (VObj 1), h)
  /\ @ObjectView.__call__ demo_django views_globals GenericView_class
       1%positive (VObj 7) VNone h
     = (Raise (NameError "RequestContext"), h).
Proof.
  intros h.
  assert (Ht : @GenericView.self_get_template demo_django views_globals
                 GenericView_class 1%positive (VObj 7) VNone h
               = (Return (VObj 1), h)) by reflexivity.
  split; [exact Ht|].
  exact (proj1 (proj2 (@inherited_get_context_stops_the_call demo_django
                         GenericView_class 1%positive (VObj 7) VNone h h
                         (VObj 1) VNone eq_refl eq_refl Ht eq_refl))).
Defined.

(** A run of X5: a view with a context of its own and the inherited
    [get_response]. *)
Lemma inherited_get_response_never_renders_witness :
  let h := made context_view [] in
  @GenericView.self_get_context demo_django views_globals context_view
    1%positive (VObj 7) VNone VNone h
  = (Return (VDict [(VStr "greeting", VStr "hello")]), h)
  /\ @GenericView.__call__ demo_django views_globals context_view
       1%positive (VObj 7) VNone h
     = (Raise (NameError "HttpResponse"), h).
Proof.
  intros h.
  assert (Hc : @GenericView.self_get_context demo_django views_globals
                 context_view 1%positive (VObj 7) VNone VNone h
               = (Return (VDict [(VStr "greeting", VStr "hello")]), h))
    by reflexivity.
  split; [exact Hc|].
  exact (proj1 (@inherited_get_response_never_renders demo_django
                  context_view 1%positive (VObj 7) VNone h h h h
                  (VObj 1) _ (VStr "text/html") eq_refl eq_refl Hc eq_refl)).
Defined.

(** *** Constructing views *)

Lemma construct_view_run C call kwargs (h : heap) :
  construct (view_type C call) kwargs h
  = (match unexpected kwargs with
     | [] => Return (fresh (dom h))
     | k :: _ => Raise (TypeError (GenericView.unexpected_keyword k))
     end,
     <[fresh (dom h) := configured C kwargs GenericView.defaults ∅]> h).
Proof.
  rewrite construct_run. cbn zeta. cbn [view_type cls___init__].
  rewrite init_run.
  rewrite (alter_alt_Some _ _ _ ∅) by apply lookup_insert_eq.
  rewrite insert_insert_eq. by destruct (unexpected kwargs).
Qed.

Lemma dom_configured C kwargs :
  dom (configured C kwargs GenericView.defaults ∅)
  = (list_to_set config_names : gset string).
Proof.
  rewrite configured_defaults. rewrite !dom_insert_L, dom_empty_L.
  cbn. set_solver.
Qed.

(** X6: a keyword argument given to [instantiator] that is none of the four
    configuration names is not reported when [instantiator] is called, but
    at every invocation of the function it returned: the invocation raises
    the [TypeError] of [GenericView.__init__], and the [__call__] of the
    class is not run. *)
Theorem instantiator_reports_a_bad_keyword_at_each_call (C : view_class)
    (call : loc -> value -> value -> M value) (kwargs : kwargs)
    (request object : value) (h : heap) (k : string) (rest : list string) :
  unexpected kwargs = k :: rest ->
  instantiator (view_type C call) kwargs request object h
  = (Raise (TypeError (GenericView.unexpected_keyword k)),
     <[fresh (dom h) := configured C kwargs GenericView.defaults ∅]> h).
Proof.
  intros Hu. unfold instantiator, new_instance, bind.
  by rewrite construct_view_run, Hu.
Qed.

(** A run of X6: [template] written for [template_name]. *)
Lemma instantiator_reports_a_bad_keyword_at_each_call_witness :
  let kwargs := [("template", VStr "a.html")] in
  unexpected kwargs = ["template"]
  /\ fst (instantiator hello_type kwargs (VObj 7) VNone ∅)
     = Raise (TypeError "__init__() got an unexpected keyword argument 'template'")
  /\ fst (instantiator hello_type kwargs (VObj 8) VNone
            (snd (instantiator hello_type kwargs (VObj 7) VNone ∅)))
     = Raise (TypeError "__init__() got an unexpected keyword argument 'template'").
Proof.
  intros kwargs.
  assert (Hu : unexpected kwargs = ["template"]) by reflexivity.
  split; [exact Hu|]. split.
  - unfold hello_type.
    rewrite (instantiator_reports_a_bad_keyword_at_each_call hello_view _
               kwargs (VObj 7) VNone ∅ "template" [] Hu).
    reflexivity.
  - unfold hello_type.
    rewrite (instantiator_reports_a_bad_keyword_at_each_call hello_view _
               kwargs (VObj 8) VNone _ "template" [] Hu).
    reflexivity.
Defined.

(** X7: when every keyword argument is one of the four configuration
    names, constructing a view makes an object that was not in the heap and
    whose [__dict__] holds the four configuration attributes and nothing
    else, with values that depend on the class and the keyword arguments
    only, not on anything an earlier request left behind; the objects that
    were there are left as they were. *)
Theorem constructed_view_holds_the_configuration_only (C : view_class)
    (call : loc -> value -> value -> M value) (kwargs : kwargs) (h : heap) :
  List.Forall (fun k => In k config_names) (dict_keys kwargs) ->
  exists self h1,
    construct (view_type C call) kwargs h = (Return self, h1)
    /\ h !! self = None
    /\ h1 !! self = Some (configured C kwargs GenericView.defaults ∅)
    /\ dom (configured C kwargs GenericView.defaults ∅)
       = (list_to_set config_names : gset string)
    /\ forall l, l <> self -> h1 !! l = h !! l.
Proof.
  intros Hall. apply unexpected_nil in Hall.
  exists (fresh (dom h)), (<[fresh (dom h) := configured C kwargs GenericView.defaults ∅]> h).
  split; [by rewrite construct_view_run, Hall|].
  split; [apply not_elem_of_dom, is_fresh|].
  split; [apply lookup_insert_eq|].
  split; [apply dom_configured|].
  intros l Hl. by apply lookup_insert_ne.
Qed.

(** A run of X7: the second instance starts from the same [__dict__] as the
    first, whatever was set on the first in between. *)
Lemma constructed_view_holds_the_configuration_only_witness :
  let kwargs := [("mimetype", VStr "text/plain")] in
  let dirty : heap :=
    {[1%positive := {["mimetype" := VStr "text/csv"; "user" := VStr "ann"]}]} in
  List.Forall (fun k => In k config_names) (dict_keys kwargs)
  /\ exists h1,
       construct hello_type kwargs dirty = (Return 2%positive, h1)
       /\ h1 !! 2%positive = made hello_view kwargs !! 1%positive.
Proof.
  intros kwargs dirty.
  assert (Hall : List.Forall (fun k => In k config_names) (dict_keys kwargs)).
  { constructor; [cbn; tauto|constructor]. }
  split; [exact Hall|].
  destruct (constructed_view_holds_the_configuration_only hello_view
              (@ObjectView.__call__ demo_django views_globals hello_view)
              kwargs dirty Hall) as (self & h1 & Hc & _ & Hself & _).
  exists h1.
  assert (Hrun : construct hello_type kwargs dirty
                 = (Return 2%positive,
                    <[2%positive := configured hello_view kwargs
                                      GenericView.defaults ∅]> dirty))
    by reflexivity.
  unfold hello_type in Hrun. rewrite Hrun in Hc. injection Hc as <- <-.
  split; [reflexivity|].
  rewrite lookup_insert_eq. reflexivity.
Defined.

(** *** The loop of _load_config_values, again *)

(** X8: [_load_config_values] runs over the keys of a dict, in an order the
    source does not fix; whatever the order, it sets the same attributes to
    the same values and leaves the same keyword arguments in the caller's
    dict. *)
Theorem config_loop_order_is_irrelevant (C : view_class) (self : loc)
    (kwargs defaults' : kwargs) (h : heap) :
  Permutation GenericView.defaults defaults' ->
  GenericView._load_config_values C self kwargs defaults' h
  = GenericView._load_config_values C self kwargs GenericView.defaults h.
Proof.
  intros Hp. apply load_config_values_any_order; [done|].
  vm_compute. repeat constructor; cbn; intuition congruence.
Qed.

(** A run of X8: the defaults taken from the last to the first. *)
Lemma config_loop_order_is_irrelevant_witness :
  let kwargs := [("mimetype", VStr "text/plain"); ("foo", VInt 1)] in
  Permutation GenericView.defaults (rev GenericView.defaults)
  /\ GenericView._load_config_values json_view 1%positive kwargs
       (rev GenericView.defaults) {[1%positive := ∅]}
     = GenericView._load_config_values json_view 1%positive kwargs
         GenericView.defaults {[1%positive := ∅]}.
Proof.
  intros kwargs.
  assert (Hp : Permutation GenericView.defaults (rev GenericView.defaults))
    by apply Permutation_rev.
  split; [exact Hp|].
  exact (config_loop_order_is_irrelevant json_view 1%positive kwargs
           (rev GenericView.defaults) {[1%positive := ∅]} Hp).
Defined.

(** X9: a keyword argument given as None counts as given: on a view
    initialised with [template_name=None], the inherited
    [get_template_names] returns the empty list even when the class has a
    [template_name] of its own, so the guard of [get_template] fires. *)
Theorem None_keyword_hides_the_class_template `{Django} (G : namespace)
    (C : view_class) (self : loc) (kwargs : kwargs) (h : heap)
    (d : gmap string value) (request object : value) :
  h !! self = Some d ->
  dict_get "template_name" kwargs = Some VNone ->
  def_get_template_names C = None ->
  GenericView.get_template_names C self request object
    (snd (GenericView.__init__ C self kwargs h))
  = (Return (VList []), snd (GenericView.__init__ C self kwargs h))
  /\ GenericView.get_template G C self request object
       (snd (GenericView.__init__ C self kwargs h))
     = (Raise (if bound G "ImproperlyConfigured"
               then ImproperlyConfigured (GenericView.must_provide (cls_name C))
               else NameError "ImproperlyConfigured"),
        snd (GenericView.__init__ C self kwargs h)).
Proof.
  intros Hd Hkw Hgn.
  set (h' := snd (GenericView.__init__ C self kwargs h)).
  assert (Htn : getattr_self C self "template_name" h' = (Return VNone, h')).
  { apply getattr_self_attr. unfold h'.
    rewrite (attr_after_init C self kwargs h d "template_name" VNone Hd)
      by (cbn; tauto).
    unfold config_value. by rewrite Hkw. }
  assert (Hnames : GenericView.get_template_names C self request object h'
                   = (Return (VList []), h')).
  { unfold GenericView.get_template_names, bind. by rewrite Htn. }
  split; [done|].
  apply (get_template_guard C self request object G h' h' (VList [])); [|done].
  unfold GenericView.self_get_template_names. by rewrite Hgn.
Qed.

(** A run of X9: [JsonView(template_name=None)]. *)
Lemma None_keyword_hides_the_class_template_witness :
  let kwargs := [("template_name", VNone)] in
  let h : heap := {[1%positive := ∅]} in
  h !! 1%positive = Some ∅
  /\ dict_get "template_name" (cls_attrs json_view) = Some (VStr "class.html")
  /\ fst (GenericView.get_template_names json_view 1%positive (VObj 7) VNone
            (snd (GenericView.__init__ json_view 1%positive kwargs h)))
     = Return (VList []).
Proof.
  intros kwargs h.
  assert (Hd : h !! 1%positive = Some ∅) by reflexivity.
  split; [exact Hd|]. split; [reflexivity|].
  rewrite (proj1 (@None_keyword_hides_the_class_template demo_django
                    views_globals json_view 1%positive kwargs h ∅
                    (VObj 7) VNone Hd eq_refl eq_refl)).
  reflexivity.
Defined.

(** *** Classes made by the metaclass *)

Section Metaclass.
Context {callable : Type}.
Implicit Types (cls base : ObjectViewMeta.pyclass callable).
Implicit Types (ds : list (ObjectViewMeta.decorator callable)).

Lemma nested_app ds1 ds2 call (h : heap) :
  nested (ds1 ++ ds2)%list call h = (c <- nested ds2 call ;; nested ds1 c) h.
Proof.
  revert h. induction ds1 as [|d ds1 IH]; intros h.
  - cbn [app]. unfold bind. by destruct (nested ds2 call h) as [[c|e] h1].
  - change (nested ((d :: ds1) ++ ds2)%list call)
      with (c <- nested (ds1 ++ ds2)%list call ;; d c).
    unfold bind at 1. rewrite IH. unfold bind.
    destruct (nested ds2 call h) as [[c|e] h1]; [|done].
    change (nested (d :: ds1) c) with (c' <- nested ds1 c ;; d c').
    reflexivity.
Qed.

Lemma metaclass_pure_run name base attrs (fs : list (callable -> callable))
    (h : heap) :
  ObjectViewMeta.c_decorators (ObjectViewMeta.type___new__ name base attrs)
  = Some (List.map (fun f c => ret (f c)) fs) ->
  ObjectViewMeta.__new__ name base attrs h
  = (Return (ObjectViewMeta.set___call__
               (ObjectViewMeta.type___new__ name base attrs)
               (foldr (fun f c => f c)
                  (ObjectViewMeta.c___call__
                     (ObjectViewMeta.type___new__ name base attrs)) fs)), h).
Proof.
  intros Hds. unfold ObjectViewMeta.__new__. rewrite Hds. cbn zeta.
  rewrite for_decorators_rev. unfold bind. by rewrite nested_pure.
Qed.

(** X10: [hasattr(cls, "decorators")] also finds an inherited attribute.
    So a subclass that states neither [decorators] nor [__call__] inherits
    the decorated [__call__] of its parent and has the parent's decorators
    applied to it once more: its [__call__] is the decorators' nesting taken
    twice around the original. *)
Theorem subclass_is_decorated_again (pname sname : string) base
    (fs : list (callable -> callable)) (own : option callable) (h : heap) :
  (parent <- ObjectViewMeta.__new__ pname base
               {| ObjectViewMeta.body_decorators :=
                    Some (List.map (fun f c => ret (f c)) fs);
                  ObjectViewMeta.body___call__ := own |} ;;
   ObjectViewMeta.__new__ sname parent
     {| ObjectViewMeta.body_decorators := None;
        ObjectViewMeta.body___call__ := None |}) h
  = (Return
       {| ObjectViewMeta.c_name := sname;
          ObjectViewMeta.c_decorators :=
            Some (List.map (fun f c => ret (f c)) fs);
          ObjectViewMeta.c___call__ :=
            foldr (fun f c => f c)
              (foldr (fun f c => f c)
                 (default (ObjectViewMeta.c___call__ base) own) fs) fs |}, h).
Proof.
  unfold bind at 1.
  rewrite (metaclass_pure_run pname base _ fs) by reflexivity.
  by rewrite (metaclass_pure_run sname _ _ fs) by reflexivity.
Qed.

(** X11: a decorator that raises when the class is made makes the class
    statement raise, and the decorators listed before it, which would come
    after it, are not applied. *)
Theorem failing_decorator_aborts_the_class (name : string) base
    (attrs : ObjectViewMeta.class_body callable) ds1 ds2
    (d : ObjectViewMeta.decorator callable) (h h1 h2 : heap) (c : callable)
    (e : exn) :
  ObjectViewMeta.c_decorators (ObjectViewMeta.type___new__ name base attrs)
  = Some (ds1 ++ d :: ds2)%list ->
  nested ds2 (ObjectViewMeta.c___call__
                (ObjectViewMeta.type___new__ name base attrs)) h
  = (Return c, h1) ->
  d c h1 = (Raise e, h2) ->
  ObjectViewMeta.__new__ name base attrs h = (Raise e, h2).
Proof.
  intros Hds Hin Hd. unfold ObjectViewMeta.__new__. rewrite Hds. cbn zeta.
  rewrite for_decorators_rev. unfold bind at 1. rewrite nested_app.
  unfold bind at 1.
  change (nested (d :: ds2) ?x) with (c' <- nested ds2 x ;; d c').
  unfold bind at 1. by rewrite Hin, Hd.
Qed.

End Metaclass.

(** A run of X11: the second of three decorators fails. *)
Lemma failing_decorator_aborts_the_class_witness :
  let attrs :=
    {| ObjectViewMeta.body_decorators :=
         Some ([wrap "d1"] ++ broken_decorator :: [wrap "d3"])%list;
       ObjectViewMeta.body___call__ := None |} in
  nested [wrap "d3"] "ObjectView.__call__" ∅
  = (Return "d3(ObjectView.__call__)", ∅)
  /\ fst (ObjectViewMeta.__new__ "MyView" ObjectView_by_name attrs ∅)
     = Raise (TypeError "not callable").
Proof.
  intros attrs.
  assert (Hin : nested [wrap "d3"] "ObjectView.__call__" ∅
                = (Return "d3(ObjectView.__call__)", ∅)) by reflexivity.
  split; [exact Hin|].
  rewrite (failing_decorator_aborts_the_class "MyView" ObjectView_by_name attrs
             [wrap "d1"] [wrap "d3"] broken_decorator ∅ ∅ ∅
             "d3(ObjectView.__call__)" (TypeError "not callable")
             eq_refl Hin eq_refl).
  reflexivity.
Defined.

(** *** decorate_method_with in a decorators list *)

Lemma foldr_method_decorators
    (fds : list ((value * value -> M value) -> M (value * value -> M value)))
    (call : method) :
  foldr (fun f c => f c) call
    (List.map (fun fd m => decorate_method_with fd m) fds)
  = foldr (fun fd m => decorate_method_with fd m) call fds.
Proof. induction fds as [|fd fds IH]; [done|]. cbn. by rewrite IH. Qed.

(** X12: a class whose [decorators] are function decorators passed through
    [decorate_method_with] gets, with no effect when the class is made, a
    [__call__] that nests the proxies in list order; and a proxy applies its
    function decorator at every call of the method, to the method already
    bound to [self], before calling the result with the other arguments. *)
Theorem method_decorators_wrap_the_call (name : string)
    (base : ObjectViewMeta.pyclass method)
    (fds : list ((value * value -> M value) -> M (value * value -> M value)))
    (own : option method) (h : heap) :
  ObjectViewMeta.__new__ name base
    {| ObjectViewMeta.body_decorators := Some (List.map method_decorator fds);
       ObjectViewMeta.body___call__ := own |} h
  = (Return
       {| ObjectViewMeta.c_name := name;
          ObjectViewMeta.c_decorators := Some (List.map method_decorator fds);
          ObjectViewMeta.c___call__ :=
            foldr (fun fd m => decorate_method_with fd m)
              (default (ObjectViewMeta.c___call__ base) own) fds |}, h)
  /\ forall fd (m : method) self args (h' : heap),
       decorate_method_with fd m self args h'
       = match fd (fun a => m self a) h' with
         | (Return g, h'') => g args h''
         | (Raise e, h'') => (Raise e, h'')
         end.
Proof.
  split; [|done].
  assert (Hmap : List.map method_decorator fds
                 = List.map (fun f c => ret (f c))
                     (List.map (fun fd m => decorate_method_with fd m) fds)).
  { by rewrite List.map_map. }
  rewrite (metaclass_pure_run name base _
             (List.map (fun fd m => decorate_method_with fd m) fds))
    by (cbn; by rewrite Hmap).
  cbn. by rewrite foldr_method_decorators.
Qed.

(** A view behind [login_required]: an anonymous request is sent to the
    login page and the view is not called. *)
Example login_required_view :
  let view : method := fun self args => ret (VStr "secret") in
  let made_class :=
    ObjectViewMeta.__new__ "SecretView"
      {| ObjectViewMeta.c_name := "ObjectView";
         ObjectViewMeta.c_decorators := None;
         ObjectViewMeta.c___call__ := view |}
      {| ObjectViewMeta.body_decorators :=
           Some [method_decorator login_required];
         ObjectViewMeta.body___call__ := None |} ∅ in
  match fst made_class with
  | Return cls =>
      fst (ObjectViewMeta.c___call__ cls 1%positive (VNone, VNone) ∅)
      = Return (VTuple [VInt 302; VStr "/login/"])
      /\ fst (ObjectViewMeta.c___call__ cls 1%positive (VObj 7, VNone) ∅)
         = Return (VStr "secret")
  | Raise _ => False
  end.
Proof. cbn. by split. Qed.
